(** * Multilingual translation platform: a model of [src/app.py]

    The program has two pipelines, each "extract, translate, rebuild":
    - the article pipeline ([ArticlesTranslator], [article_translator_page])
      fetches a web page, keeps its visible text, asks a chat-completion
      endpoint for a translation and offers the answer as UTF-8 markdown;
    - the document pipeline ([DocumentsTranslator],
      [document_translator_page]) reads the paragraphs of a Word document,
      joins them with newlines, asks a phrase-translation endpoint for a
      translation and rebuilds a document with one paragraph per line.

    The network, the HTML parser, the reader and the writer of Word files
    and the animation component are libraries: they appear as an environment
    of oracles ([Env]) and as a log of the calls made to them ([event]).  What the
    program itself computes (requests, status checks, subscripts, splitting,
    joining, the order of the calls, the handling of exceptions) is a Rocq
    function. *)

From Stdlib Require Import ZArith List Lia Bool String Ascii QArith.
From Stdlib Require Import DecimalString.
Import ListNotations.
Local Open Scope Z_scope.

Set Implicit Arguments.
Set Warnings "-register-all".

(* ================================================================= *)
(** ** Python strings *)

(** A Python [str] is a sequence of code points. *)
Definition str := list Z.

(** The literals of the source are ASCII. *)
Definition lit (s : string) : str :=
  map (fun a => Z.of_N (N_of_ascii a)) (list_ascii_of_string s).

Definition NEWLINE : Z := 10.

Definition str_eqb (a b : str) : bool :=
  if list_eq_dec Z.eq_dec a b then true else false.

(** [sep.join(parts)] *)
Fixpoint join (sep : str) (parts : list str) : str :=
  match parts with
  | [] => []
  | [p] => p
  | p :: rest => p ++ sep ++ join sep rest
  end.

(** [s.split(sep)] for a separator of one character, the only use in the
    source ([translation.split("\n")]): every occurrence of the separator
    ends a segment, so the empty string gives one empty segment. *)
Fixpoint split (sep : Z) (s : str) : list str :=
  match s with
  | [] => [[]]
  | c :: s' =>
      if c =? sep then [] :: split sep s'
      else match split sep s' with
           | seg :: segs => (c :: seg) :: segs
           | [] => [[c]]
           end
  end.

(** [s.count(c)] for one character. *)
Definition count (c : Z) (s : str) : nat :=
  List.length (filter (Z.eqb c) s).

(** [str.isspace] on one code point: the characters [str.strip()] removes. *)
Definition isspace (c : Z) : bool :=
  ((9 <=? c) && (c <=? 13)) || ((28 <=? c) && (c <=? 32))
  || (c =? 133) || (c =? 160) || (c =? 5760)
  || ((8192 <=? c) && (c <=? 8202))
  || (c =? 8232) || (c =? 8233) || (c =? 8239) || (c =? 8287) || (c =? 12288).

Fixpoint lstrip (s : str) : str :=
  match s with
  | [] => []
  | c :: s' => if isspace c then lstrip s' else s
  end.

Definition rstrip (s : str) : str := rev (lstrip (rev s)).

(** [s.strip()] *)
Definition strip (s : str) : str := lstrip (rstrip s).

(** [str(n)] for an integer: its decimal numeral. *)
Definition str_of_int (n : Z) : str :=
  lit (NilZero.string_of_int (Z.to_int n)).

(* ================================================================= *)
(** ** UTF-8

    [translation.encode("utf-8")] (line 213) uses the strict error handler:
    a surrogate code point cannot be encoded and raises
    [UnicodeEncodeError].  Bytes are integers in [0, 255]. *)

Definition bytes := list Z.

Definition is_surrogate (c : Z) : bool := (55296 <=? c) && (c <=? 57343).

(** The code points a Python [str] can hold. *)
Definition is_code_point (c : Z) : bool := (0 <=? c) && (c <=? 1114111).

(** Unicode scalar values: code points that are not surrogates. *)
Definition is_scalar (c : Z) : bool := is_code_point c && negb (is_surrogate c).

(** The bytes of one code point; [None] where the strict encoder raises. *)
Definition encode_code_point (c : Z) : option bytes :=
  if negb (is_scalar c) then None
  else if c <? 128 then Some [c]
  else if c <? 2048 then Some [192 + c / 64; 128 + c mod 64]
  else if c <? 65536 then
    Some [224 + c / 4096; 128 + (c / 64) mod 64; 128 + c mod 64]
  else
    Some [240 + c / 262144; 128 + (c / 4096) mod 64;
          128 + (c / 64) mod 64; 128 + c mod 64].

Fixpoint utf8_encode_from (pos : nat) (s : str) : nat + bytes :=
  match s with
  | [] => inr []
  | c :: s' =>
      match encode_code_point c with
      | None => inl pos
      | Some bs =>
          match utf8_encode_from (S pos) s' with
          | inl p => inl p
          | inr rest => inr (bs ++ rest)
          end
      end
  end.

(** [s.encode("utf-8")]: the bytes, or the position of the first code point
    that cannot be encoded. *)
Definition utf8_encode (s : str) : nat + bytes := utf8_encode_from 0 s.

Definition is_continuation (b : Z) : bool := (128 <=? b) && (b <=? 191).

Definition in_range (lo hi b : Z) : bool := (lo <=? b) && (b <=? hi).

(** [data.decode("utf-8")], strict: shortest forms only, no surrogate, nothing
    above U+10FFFF; [None] where the decoder raises [UnicodeDecodeError]. *)
Fixpoint utf8_decode (bs : bytes) : option str :=
  match bs with
  | [] => Some []
  | b0 :: r0 =>
      if in_range 0 127 b0 then option_map (cons b0) (utf8_decode r0)
      else if in_range 194 223 b0 then
        match r0 with
        | b1 :: r1 =>
            if is_continuation b1
            then option_map (cons ((b0 - 192) * 64 + (b1 - 128))) (utf8_decode r1)
            else None
        | _ => None
        end
      else if in_range 224 239 b0 then
        match r0 with
        | b1 :: b2 :: r2 =>
            if in_range (if b0 =? 224 then 160 else 128)
                        (if b0 =? 237 then 159 else 191) b1
               && is_continuation b2
            then option_map
                   (cons ((b0 - 224) * 4096 + (b1 - 128) * 64 + (b2 - 128)))
                   (utf8_decode r2)
            else None
        | _ => None
        end
      else if in_range 240 244 b0 then
        match r0 with
        | b1 :: b2 :: b3 :: r3 =>
            if in_range (if b0 =? 240 then 144 else 128)
                        (if b0 =? 244 then 143 else 191) b1
               && is_continuation b2 && is_continuation b3
            then option_map
                   (cons ((b0 - 240) * 262144 + (b1 - 128) * 4096
                          + (b2 - 128) * 64 + (b3 - 128)))
                   (utf8_decode r3)
            else None
        | _ => None
        end
      else None
  end.

(* ================================================================= *)
(** ** Word documents (python-docx)

    The program touches a document only through [doc.paragraphs],
    [paragraph.text], [Document()] and [add_paragraph(text)].  A document is
    its paragraphs in order; a paragraph is modelled by the text that
    [paragraph.text] reports for it. *)

Record Paragraph := { text : str }.

Record Document := { paragraphs : list Paragraph }.

(** [Document()] without a file: the default template, which has no
    paragraph. *)
Definition new_Document : Document := {| paragraphs := [] |}.

(** Lines 272-274: [[paragraph.text for paragraph in doc.paragraphs]]. *)
Definition paragraph_texts (d : Document) : list str :=
  map text (paragraphs d).

(* ================================================================= *)
(** ** Python values, subscripts and exceptions *)

(** What [response.json()] returns and what a request body is made of.  A
    [dict] keeps its items in insertion order; its keys are strings, as in
    JSON, and a key is looked up at its first binding. *)
Inductive pyvalue :=
| PyNone
| PyBool (b : bool)
| PyInt (n : Z)
| PyFloat (q : Q)
| PyStr (s : str)
| PyList (items : list pyvalue)
| PyDict (items : list (str * pyvalue)).

(** The two kinds of subscript of the source: [v[0]] and [v["name"]]. *)
Inductive key :=
| KInt (i : Z)
| KStr (s : str).

Record Response := {
  status_code : Z;
  reason : str;
  response_text : str;             (* [response.text] *)
  response_json : option pyvalue   (* the parsed body; [None]: not JSON *)
}.

(** The exceptions of [requests.exceptions], all subclasses of
    [requests.RequestException]. *)
Inductive requests_exception :=
| HTTPError (response : Response)
| ConnectionError (msg : str)
| Timeout (msg : str)
| TooManyRedirects (msg : str)
| MissingSchema (msg : str)
| InvalidURL (msg : str)
| JSONDecodeError (msg : str).

Inductive exn :=
| Exception_ (msg : str)                  (* [Exception(msg)] *)
| RequestException (e : requests_exception)
| KeyError (k : key)
| IndexError
| TypeError
| AttributeError
| UnicodeEncodeError (s : str) (pos : nat)
| LibraryError (name msg : str).          (* raised inside lxml or bs4 *)

(** [isinstance(e, requests.RequestException)] *)
Definition is_RequestException (e : exn) : bool :=
  match e with RequestException _ => true | _ => false end.

(** [isinstance(e, Exception)]: every exception of the model. *)
Definition is_Exception (e : exn) : bool := true.

Inductive result (A : Type) :=
| Ok (a : A)
| Raise (e : exn).
Arguments Ok {A} a.
Arguments Raise {A} e.

Fixpoint dict_get (d : list (str * pyvalue)) (k : str) : option pyvalue :=
  match d with
  | [] => None
  | (k', v) :: d' => if str_eqb k' k then Some v else dict_get d' k
  end.

(** A sequence index: negative indices count from the end. *)
Definition seq_index {A} (l : list A) (i : Z) : option A :=
  let n := Z.of_nat (List.length l) in
  let j := if i <? 0 then i + n else i in
  if (0 <=? j) && (j <? n) then nth_error l (Z.to_nat j) else None.

(** [v[k]] *)
Definition getitem (v : pyvalue) (k : key) : result pyvalue :=
  match v, k with
  | PyList l, KInt i =>
      match seq_index l i with Some x => Ok x | None => Raise IndexError end
  | PyList _, KStr _ => Raise TypeError
  | PyDict d, KStr s =>
      match dict_get d s with Some x => Ok x | None => Raise (KeyError k) end
  | PyDict _, KInt _ => Raise (KeyError k)
  | PyStr s, KInt i =>
      match seq_index s i with Some c => Ok (PyStr [c]) | None => Raise IndexError end
  | PyStr _, KStr _ => Raise TypeError
  | _, _ => Raise TypeError
  end.

(** [response.raise_for_status()] of requests: an [HTTPError] holding the
    response for the client errors 400-499 and the server errors 500-599,
    nothing for any other status. *)
Definition raise_for_status (r : Response) : result unit :=
  if (400 <=? status_code r) && (status_code r <? 600)
  then Raise (RequestException (HTTPError r))
  else Ok tt.

(** [response.json()]: the parsed body, or the decoding error of requests
    (a [RequestException] since requests 2.27). *)
Definition json (r : Response) : result pyvalue :=
  match response_json r with
  | Some v => Ok v
  | None => Raise (RequestException (JSONDecodeError (response_text r)))
  end.

(** The HTTP status an exception lets its handler read: [e.response] of an
    [HTTPError]. *)
Definition exn_status (e : exn) : option Z :=
  match e with
  | RequestException (HTTPError r) => Some (status_code r)
  | _ => None
  end.

(** [translation.encode("utf-8")] on whatever the client returned. *)
Definition encode (v : pyvalue) : result bytes :=
  match v with
  | PyStr s =>
      match utf8_encode s with
      | inr bs => Ok bs
      | inl pos => Raise (UnicodeEncodeError s pos)
      end
  | _ => Raise AttributeError
  end.

(** *** Writing a paragraph (python-docx over lxml)

    [add_paragraph(text)] appends a paragraph and, when the text is not
    empty, a run that takes the text character by character: a tab becomes a
    tab element, a carriage return or a newline becomes a line break, and the
    characters between them are stored as text elements.  lxml refuses a
    text that cannot be encoded (a surrogate) or that holds a character XML
    does not allow. *)

(** The characters lxml accepts in a text, surrogates apart. *)
Definition xml_char (c : Z) : bool :=
  (c =? 9) || (c =? 10) || (c =? 13)
  || ((32 <=? c) && negb (c =? 65534) && negb (c =? 65535)).

Inductive run_item :=
| RunText (s : str)
| RunTab
| RunBreak.

(** The pending characters become one text element, if there are any. *)
Definition flush (buffer : str) : list run_item :=
  match buffer with
  | [] => []
  | _ => [RunText buffer]
  end.

(** The content of the run, [buffer] being the characters read since the
    last element. *)
Fixpoint run_items (buffer : str) (text : str) : list run_item :=
  match text with
  | [] => flush buffer
  | c :: rest =>
      if c =? 9 then flush buffer ++ RunTab :: run_items [] rest
      else if (c =? 13) || (c =? NEWLINE)
      then flush buffer ++ RunBreak :: run_items [] rest
      else run_items (buffer ++ [c]) rest
  end.

Definition XML_INCOMPATIBLE : exn :=
  LibraryError (lit "ValueError")
    (lit "All strings must be XML compatible: Unicode or ASCII, no NULL bytes or control characters").

(** Storing one text element. *)
Definition add_t (chunk : str) : result unit :=
  match utf8_encode chunk with
  | inl pos => Raise (UnicodeEncodeError chunk pos)
  | inr _ => if forallb xml_char chunk then Ok tt else Raise XML_INCOMPATIBLE
  end.

(** The elements are created in order; the first refused text raises. *)
Fixpoint add_items (items : list run_item) : result unit :=
  match items with
  | [] => Ok tt
  | RunText chunk :: rest =>
      match add_t chunk with
      | Ok _ => add_items rest
      | Raise e => Raise e
      end
  | _ :: rest => add_items rest
  end.

(** What [run.text] reports for an element: a line break reads as a
    newline. *)
Definition item_text (i : run_item) : str :=
  match i with
  | RunText chunk => chunk
  | RunTab => [9]
  | RunBreak => [NEWLINE]
  end.

(** [doc.add_paragraph(text)]: a new paragraph at the end, or the exception
    of the text that cannot be stored. *)
Definition add_paragraph (d : Document) (t : str) : result Document :=
  let items := run_items [] t in
  match add_items items with
  | Raise e => Raise e
  | Ok _ =>
      Ok {| paragraphs := paragraphs d ++ [ {| text := flat_map item_text items |} ] |}
  end.

(** [for line in lines: doc.add_paragraph(line)] *)
Fixpoint add_paragraphs (d : Document) (lines : list str) : result Document :=
  match lines with
  | [] => Ok d
  | line :: rest =>
      match add_paragraph d line with
      | Ok d' => add_paragraphs d' rest
      | Raise e => Raise e
      end
  end.

(** Lines 286-288:
    [translated_doc = Document()]
    [for line in translation.split("\n"): translated_doc.add_paragraph(line)] *)
Definition build_document (translation : str) : result Document :=
  add_paragraphs new_Document (split NEWLINE translation).

(** Lines 286-288 on whatever the client returned: only a [str] has
    [split]. *)
Definition document_builder (translation : pyvalue) : result Document :=
  match translation with
  | PyStr s => build_document s
  | _ => Raise AttributeError
  end.

(* ================================================================= *)
(** ** BeautifulSoup trees *)

(** The classes of the strings of a tree.  The parser makes a plain
    [NavigableString] of ordinary text and, in recent versions of the
    library, a string of a class of its own of the text inside [script],
    [style], [template], [rt] and [rp]. *)
Inductive string_kind :=
| NavigableString | CData | Comment | Declaration | Doctype
| ProcessingInstruction | Script | Stylesheet | TemplateString
| RubyTextString | RubyParenthesisString.

(** A page element: a string, a tag with its contents, or the slot left by
    an element that [decompose] detached (slots keep the positions of the
    other elements stable while the program loops over a result list). *)
Inductive node :=
| String_ (kind : string_kind) (s : str)
| Tag (name : str) (contents : list node)
| Detached.

(** The [BeautifulSoup] object: the top-level elements of the page. *)
Definition soup := list node.

(** A position in the tree: the child indices from the top down. *)
Definition path := list nat.

Section ForestPaths.
Variable f : node -> list path.

(** The positions found in the [i]-th, [i+1]-th, ... sibling. *)
Fixpoint paths_from (i : nat) (l : list node) : list path :=
  match l with
  | [] => []
  | c :: l' => map (cons i) (f c) ++ paths_from (S i) l'
  end.
End ForestPaths.

Definition name_in (name : str) (names : list str) : bool :=
  existsb (str_eqb name) names.

(** The tags named in [names] at or below [n], in document order. *)
Fixpoint matching (names : list str) (n : node) : list path :=
  match n with
  | Tag name cs =>
      (if name_in name names then [[]] else [])
      ++ paths_from (matching names) 0 cs
  | _ => []
  end.

(** [soup(names)], that is [soup.find_all(names)]: the matching tags of the
    page, in document order. *)
Definition find_all (names : list str) (page : soup) : list path :=
  paths_from (matching names) 0 page.

Fixpoint update_nth {A} (i : nat) (g : A -> A) (l : list A) : list A :=
  match l, i with
  | [], _ => []
  | x :: l', O => g x :: l'
  | x :: l', S j => x :: update_nth j g l'
  end.

(** [element.decompose()] for the element at position [p] below or at [n]:
    the element leaves the tree.  An element below an already detached one
    is no longer in the tree, and detaching it changes nothing there. *)
Fixpoint decompose_below (p : path) (n : node) : node :=
  match p with
  | [] => match n with Tag _ _ => Detached | _ => n end
  | i :: p' =>
      match n with
      | Tag name cs => Tag name (update_nth i (decompose_below p') cs)
      | _ => n
      end
  end.

(** [element.decompose()] for the element at position [p] of the page. *)
Definition decompose (p : path) (page : soup) : soup :=
  match p with
  | [] => page
  | i :: p' => update_nth i (decompose_below p') page
  end.

(** Lines 47-48: [for script in soup(["script", "style"]): script.decompose()].
    The result list is computed first, then the loop runs over it. *)
Definition decompose_all (names : list str) (page : soup) : soup :=
  fold_left (fun s p => decompose p s) (find_all names page) page.

(** [element.descendants] restricted to strings, in document order. *)
Fixpoint strings (n : node) : list (string_kind * str) :=
  match n with
  | String_ k s => [(k, s)]
  | Tag _ cs => flat_map strings cs
  | Detached => []
  end.

(** The string classes [get_text] keeps by default. *)
Definition interesting (k : string_kind) : bool :=
  match k with NavigableString | CData => true | _ => false end.

Definition nonempty (s : str) : bool :=
  match s with [] => false | _ => true end.

(** [soup._all_strings(strip)]: the strings of the interesting classes; with
    [strip] each one is stripped and dropped when nothing is left. *)
Definition all_strings (do_strip : bool) (page : soup) : list str :=
  let ss := map snd (filter (fun ks => interesting (fst ks))
                            (flat_map strings page)) in
  if do_strip then filter nonempty (map strip ss) else ss.

(** [soup.get_text(separator, strip=...)] *)
Definition get_text (separator : str) (do_strip : bool) (page : soup) : str :=
  join separator (all_strings do_strip page).

(* ================================================================= *)
(** ** The libraries around the program *)

(** The arguments of [requests.post(url, params=..., headers=..., json=...)].
    A configuration value that is not set is Python's [None]. *)
Record PostRequest := {
  post_url : option str;
  post_params : list (str * pyvalue);
  post_headers : list (str * option str);
  post_json : pyvalue
}.

(** The arguments of [st.download_button]: the data and its MIME type (the
    label and the time-stamped file name are left out). *)
Record Download := {
  download_data : bytes;
  download_mime : str
}.

Inductive widget :=
| Markdown (body : pyvalue)                    (* [st.markdown(body)] *)
| TextArea (label : str) (value : pyvalue)     (* [st.text_area(label, value)] *)
| DownloadButton (d : Download)                (* [st.download_button(...)] *)
| Error (msg : str) (about : option exn)       (* [st.error(f"{msg}{str(e)}")] *)
| Title (body : str)                           (* [st.title(body)] *)
| Lottie (animation : pyvalue) (height : Z)    (* [st_lottie(animation, height=...)] *)
| TextInput (label : str)                      (* [st.text_input(label)] *)
| Selectbox (label : str) (options : list str) (index : Z)
| FileUploader (label : str) (types : list str)
| Columns (n : Z)                              (* [st.columns(n)] *)
| Button (label : str).                        (* [st.button(label)] *)

(** What the program does to the world, in order. *)
Inductive event :=
| Get (url : str)                              (* [requests.get(url)] *)
| Post (req : PostRequest)                     (* [requests.post(...)] *)
| LogError (msg : str) (about : exn)           (* [logger.error(f"{msg}{e}")] *)
| Widget (w : widget).

(** What the world answers. *)
Record Env := {
  getenv : str -> option str;                           (* [os.getenv] *)
  requests_get : str -> requests_exception + Response;
  requests_post : PostRequest -> requests_exception + Response;
  html_parser : str -> str + soup;  (* the parsed page, or the message of
                                       [ParserRejectedMarkup] *)
  docx_Document : bytes -> result Document;             (* [Document(file)] *)
  docx_save : Document -> result bytes;                 (* [doc.save(buffer)] *)
  uuid4 : nat -> str;               (* the [n]-th [str(uuid.uuid4())] *)
  lottie_component : pyvalue -> Z -> result unit
                                    (* what [st_lottie] does with its argument *)
}.

Record State := {
  trace : list event;
  uuids : nat           (* how many identifiers were drawn *)
}.

Definition initial : State := {| trace := []; uuids := 0 |}.

(** Computations that log events and may raise. *)
Definition M (A : Type) : Type := State -> result A * State.

Definition ret {A} (a : A) : M A := fun s => (Ok a, s).

Definition bind {A B} (m : M A) (k : A -> M B) : M B :=
  fun s =>
    match m s with
    | (Ok a, s') => k a s'
    | (Raise e, s') => (Raise e, s')
    end.

Definition raise {A} (e : exn) : M A := fun s => (Raise e, s).

Definition lift {A} (r : result A) : M A := fun s => (r, s).

(** [try: body except C as e: handler(e)], where [catches] decides
    [isinstance(e, C)]. *)
Definition try_except {A} (body : M A) (catches : exn -> bool)
    (handler : exn -> M A) : M A :=
  fun s =>
    match body s with
    | (Ok a, s') => (Ok a, s')
    | (Raise e, s') => if catches e then handler e s' else (Raise e, s')
    end.

Declare Scope m_scope.
Delimit Scope m_scope with M.
Notation "x <- m ;; k" := (bind m (fun x => k))
  (at level 61, m at next level, right associativity) : m_scope.
Notation "m ;; k" := (bind m (fun _ => k))
  (at level 61, right associativity) : m_scope.
Local Open Scope m_scope.

(** The state after one more event. *)
Definition log (s : State) (e : event) : State :=
  {| trace := trace s ++ [e]; uuids := uuids s |}.

Definition emit (e : event) : M unit := fun s => (Ok tt, log s e).

Definition of_requests {A} (r : requests_exception + A) : result A :=
  match r with
  | inl e => Raise (RequestException e)
  | inr a => Ok a
  end.

Definition get (env : Env) (url : str) : M Response :=
  emit (Get url) ;; lift (of_requests (requests_get env url)).

Definition post (env : Env) (req : PostRequest) : M Response :=
  emit (Post req) ;; lift (of_requests (requests_post env req)).

Definition fresh_uuid (env : Env) : M str :=
  fun s => (Ok (uuid4 env (uuids s)),
            {| trace := trace s; uuids := S (uuids s) |}).

Definition logger_error (msg : str) (e : exn) : M unit := emit (LogError msg e).

(** Streamlit's elements: a call records the element the program asks for,
    with the value it was given.  The trace holds the calls the program
    makes, in order; how Streamlit serialises an element for the browser,
    and what it does with a value it cannot serialise, is not part of it. *)
Definition st_markdown (body : pyvalue) : M unit := emit (Widget (Markdown body)).
Definition st_text_area (label : str) (value : pyvalue) : M unit :=
  emit (Widget (TextArea label value)).
Definition st_download_button (data : bytes) (mime : str) : M unit :=
  emit (Widget (DownloadButton {| download_data := data; download_mime := mime |})).
Definition st_error (msg : str) (about : option exn) : M unit :=
  emit (Widget (Error msg about)).
Definition st_title (body : str) : M unit := emit (Widget (Title body)).
Definition st_text_input (label : str) : M unit := emit (Widget (TextInput label)).
Definition st_selectbox (label : str) (options : list str) (index : Z) : M unit :=
  emit (Widget (Selectbox label options index)).
Definition st_file_uploader (label : str) (types : list str) : M unit :=
  emit (Widget (FileUploader label types)).
Definition st_columns (n : Z) : M unit := emit (Widget (Columns n)).
Definition st_button (label : str) : M unit := emit (Widget (Button label)).

(** [st_lottie(animation, height=height)]: the component shows the
    animation, or raises what it raises on an argument it cannot show. *)
Definition st_lottie (env : Env) (animation : pyvalue) (height : Z) : M unit :=
  lift (lottie_component env animation height) ;;
  emit (Widget (Lottie animation height)).

(** [BeautifulSoup(markup, "html.parser")] *)
Definition BeautifulSoup (env : Env) (markup : str) : result soup :=
  match html_parser env markup with
  | inl msg => Raise (LibraryError (lit "ParserRejectedMarkup") msg)
  | inr page => Ok page
  end.

(** [a + b] where [a] may be [None]. *)
Definition str_add (a : option str) (b : str) : result str :=
  match a with
  | Some x => Ok (x ++ b)
  | None => Raise TypeError
  end.

(* ================================================================= *)
(** ** load_lottie *)

(** [load_lottie(url)] (lines 26-31): the animation as parsed JSON, or
    [None] when the status is not 200. *)
Definition load_lottie (env : Env) (url : str) : M pyvalue :=
  r <- get env url ;;
  if negb (status_code r =? 200) then ret PyNone else lift (json r).

(* ================================================================= *)
(** ** class ArticlesTranslator *)

Module ArticlesTranslator.

Record t := {
  api_key : option str;
  endpoint : option str
}.

(** [__init__] *)
Definition init (env : Env) : t :=
  {| api_key := getenv env (lit "AZURE_OPENAI_KEY");
     endpoint := getenv env (lit "AZURE_ENDPOINT") |}.

Definition hidden_tags : list str := [lit "script"; lit "style"].

(** Lines 46-50, from the parsed page to the text. *)
Definition visible_text (page : soup) : str :=
  get_text (lit " ") true (decompose_all hidden_tags page).

(** [extract_text(self, url)] *)
Definition extract_text (env : Env) (self : t) (url : str) : M str :=
  try_except
    (response <- get env url ;;
     lift (raise_for_status response) ;;
     page <- lift (BeautifulSoup env (response_text response)) ;;
     ret (visible_text page))
    is_RequestException
    (fun e => logger_error (lit "Failed to fetch URL: ") e ;; raise e).

Definition headers (self : t) : list (str * option str) :=
  [ (lit "Content-Type", Some (lit "application/json"));
    (lit "api-key", api_key self) ].

Definition text_part (s : str) : pyvalue :=
  PyDict [ (lit "type", PyStr (lit "text")); (lit "text", PyStr s) ].

Definition message (role : str) (s : str) : pyvalue :=
  PyDict [ (lit "role", PyStr role); (lit "content", PyList [text_part s]) ].

Definition user_instruction (text target_language : str) : str :=
  lit "translate: " ++ text ++ lit " to " ++ target_language
  ++ lit " language and respond only with the translation in markdown format".

(** Lines 62-83 *)
Definition payload (text target_language : str) : pyvalue :=
  PyDict
    [ (lit "messages",
       PyList [ message (lit "system") (lit "You act as a text translator");
                message (lit "user") (user_instruction text target_language) ]);
      (lit "temperature", PyFloat 0.9%Q);
      (lit "top_p", PyFloat 0.95%Q);
      (lit "max_tokens", PyInt 900) ].

Definition request (self : t) (text target_language : str) : PostRequest :=
  {| post_url := endpoint self;
     post_params := [];
     post_headers := headers self;
     post_json := payload text target_language |}.

(** [response.json()["choices"][0]["message"]["content"]] *)
Definition first_choice (response : Response) : result pyvalue :=
  match json response with
  | Raise e => Raise e
  | Ok body =>
      match getitem body (KStr (lit "choices")) with
      | Raise e => Raise e
      | Ok choices =>
          match getitem choices (KInt 0) with
          | Raise e => Raise e
          | Ok choice =>
              match getitem choice (KStr (lit "message")) with
              | Raise e => Raise e
              | Ok msg => getitem msg (KStr (lit "content"))
              end
          end
      end
  end.

(** [translate_text(self, text, target_language)] *)
Definition translate_text (env : Env) (self : t) (text target_language : str)
  : M pyvalue :=
  try_except
    (response <- post env (request self text target_language) ;;
     lift (raise_for_status response) ;;
     lift (first_choice response))
    is_RequestException
    (fun e => logger_error (lit "API request failed: ") e ;; raise e).

End ArticlesTranslator.

(* ================================================================= *)
(** ** class DocumentsTranslator *)

Module DocumentsTranslator.

Record t := {
  api_key : option str;
  endpoint : option str;
  location : option str
}.

(** [__init__] *)
Definition init (env : Env) : t :=
  {| api_key := getenv env (lit "TRANSLATOR_API_KEY");
     endpoint := getenv env (lit "TRANSLATOR_ENDPOINT");
     location := getenv env (lit "TRANSLATOR_LOCATION") |}.

Definition params (source_language target_language : str)
  : list (str * pyvalue) :=
  [ (lit "api-version", PyStr (lit "3.0"));
    (lit "from", PyStr source_language);
    (lit "to", PyList [PyStr target_language]) ].

Definition headers (self : t) (trace_id : str) : list (str * option str) :=
  [ (lit "Ocp-Apim-Subscription-Key", api_key self);
    (lit "Ocp-Apim-Subscription-Region", location self);
    (lit "Content-type", Some (lit "application/json"));
    (lit "X-ClientTraceId", Some trace_id) ].

Definition body (text : str) : pyvalue :=
  PyList [ PyDict [ (lit "text", PyStr text) ] ].

Definition request (self : t) (constructed_url trace_id : str)
    (text source_language target_language : str) : PostRequest :=
  {| post_url := Some constructed_url;
     post_params := params source_language target_language;
     post_headers := headers self trace_id;
     post_json := body text |}.

(** [response.json()[0]["translations"][0]["text"]] *)
Definition first_translation (response : Response) : result pyvalue :=
  match json response with
  | Raise e => Raise e
  | Ok answer =>
      match getitem answer (KInt 0) with
      | Raise e => Raise e
      | Ok first =>
          match getitem first (KStr (lit "translations")) with
          | Raise e => Raise e
          | Ok translations =>
              match getitem translations (KInt 0) with
              | Raise e => Raise e
              | Ok translation => getitem translation (KStr (lit "text"))
              end
          end
      end
  end.

(** [Exception(f"Translation error: {response.status_code}")] *)
Definition TranslationError (status : Z) : exn :=
  Exception_ (lit "Translation error: " ++ str_of_int status).

(** [translate_text(self, text, source_language, target_language)] *)
Definition translate_text (env : Env) (self : t)
    (text source_language target_language : str) : M pyvalue :=
  constructed_url <- lift (str_add (endpoint self) (lit "/translate")) ;;
  trace_id <- fresh_uuid env ;;
  response <- post env (request self constructed_url trace_id
                          text source_language target_language) ;;
  if status_code response =? 200
  then lift (first_translation response)
  else raise (TranslationError (status_code response)).

End DocumentsTranslator.

(* ================================================================= *)
(** ** The pages

    What the input widgets return ([st.text_input], [st.selectbox],
    [st.file_uploader], [st.button]) is an argument of the page.  Each page
    is its header (the calls down to [st.button]), then the [if] statement
    on what the button returned, then the closing rule. *)

Inductive Language := English | French | Spanish | German | Portuguese | Italian.

(** The [languages] table of [article_translator_page]. *)
Definition article_languages (l : Language) : str :=
  match l with
  | Portuguese => [112; 111; 114; 116; 117; 103; 117; 234; 115]
  | English => lit "english"
  | Spanish => [101; 115; 112; 97; 241; 111; 108]
  | French => [102; 114; 97; 110; 231; 97; 105; 115]
  | German => lit "deutsch"
  | Italian => lit "italiano"
  end.

(** The [languages] table of [document_translator_page]. *)
Definition document_languages (l : Language) : str :=
  match l with
  | English => lit "en"
  | French => lit "fr"
  | Spanish => lit "es"
  | German => lit "de"
  | Portuguese => lit "pt"
  | Italian => lit "it"
  end.

Definition MARKDOWN_MIME : str := lit "text/markdown".
Definition DOCX_MIME : str :=
  lit "application/vnd.openxmlformats-officedocument.wordprocessingml.document".
Definition AN_ERROR_OCCURRED : str := lit "An error occurred: ".

(** Lines 203-216: the body of the [try] of the article page. *)
Definition article_pipeline (env : Env) (translator : ArticlesTranslator.t)
    (url : str) (target_language : Language) : M unit :=
  text <- ArticlesTranslator.extract_text env translator url ;;
  translation <- ArticlesTranslator.translate_text env translator text
                   (article_languages target_language) ;;
  st_markdown (PyStr (lit "### Translation Result")) ;;
  st_markdown translation ;;
  data <- lift (encode translation) ;;
  st_download_button data MARKDOWN_MIME.

(** Lines 200-219: [if st.button(...): try: ... except Exception as e: ...],
    [clicked] being what the button returned; the translator is the one
    constructed at line 185. *)
Definition article_translator_action (env : Env) (url : str)
    (target_language : Language) (clicked : bool) : M unit :=
  let translator := ArticlesTranslator.init env in
  if clicked then
    try_except (article_pipeline env translator url target_language)
      is_Exception
      (fun e => st_error AN_ERROR_OCCURRED (Some e))
  else ret tt.

(** Lines 271-301: the body of the [try] of the document page. *)
Definition document_pipeline (env : Env) (translator : DocumentsTranslator.t)
    (file : bytes) (source_language target_language : Language) : M unit :=
  doc <- lift (docx_Document env file) ;;
  let original_text := join [NEWLINE] (paragraph_texts doc) in
  translation <- DocumentsTranslator.translate_text env translator original_text
                   (document_languages source_language)
                   (document_languages target_language) ;;
  st_markdown (PyStr (lit "### Original Text")) ;;
  st_text_area (lit "original text") (PyStr original_text) ;;
  st_markdown (PyStr (lit "### Translation Result")) ;;
  st_text_area (lit "translation") translation ;;
  translated_doc <- lift (document_builder translation) ;;
  buffer <- lift (docx_save env translated_doc) ;;
  st_download_button buffer DOCX_MIME.

(** Lines 266-306: [if st.button(...): if file is not None: try: ...
    except ... else: ...], [clicked] being what the button returned; the
    translator is the one constructed at line 244. *)
Definition document_translator_action (env : Env) (file : option bytes)
    (source_language target_language : Language) (clicked : bool) : M unit :=
  let translator := DocumentsTranslator.init env in
  if clicked then
    match file with
    | Some f =>
        try_except
          (document_pipeline env translator f source_language target_language)
          is_Exception
          (fun e => st_error AN_ERROR_OCCURRED (Some e))
    | None => st_error (lit "Please upload a Word file.") None
    end
  else ret tt.

(** The names of the languages, as the source writes them. *)
Definition language_name (l : Language) : str :=
  match l with
  | English => lit "English"
  | French => lit "French"
  | Spanish => lit "Spanish"
  | German => lit "German"
  | Portuguese => lit "Portuguese"
  | Italian => lit "Italian"
  end.

(** [list(languages.keys())] of each page, in the order of the table. *)
Definition article_language_names : list str :=
  map language_name [Portuguese; English; Spanish; French; German; Italian].
Definition document_language_names : list str :=
  map language_name [English; French; Spanish; German; Portuguese; Italian].

Definition RULE : pyvalue := PyStr (lit "---").

Definition ARTICLE_ANIMATION : str :=
  lit "https://lottie.host/cdc7f167-7c8a-4b67-9a5f-3db936a8cb8d/IB6FNEMBAR.json".
Definition DOCUMENT_ANIMATION : str :=
  lit "https://lottie.host/a4fdcc12-f826-4986-a561-6f06a3bfb1e1/kFJXH2m2jf.json".

Definition ARTICLE_HOW : str := lit "
    ### How does it work?
    1. Paste the URL of the article you want to translate
    2. Select the target language
    3. Click translate
    4. Download the result in markdown format
    ".

Definition DOCUMENT_HOW : str := lit "
    ### How does it work?
    1. Upload your Word document
    2. Select source and target languages
    3. Click translate
    4. Download the translated document
    ".

(** Lines 167-200 of [article_translator_page], down to the button.  The
    labels start with a pictograph, given by its code point. *)
Definition article_translator_header (env : Env) : M unit :=
  st_title (128240 :: lit " Article Translator") ;;
  lottie_article <- load_lottie env ARTICLE_ANIMATION ;;
  st_lottie env lottie_article 200 ;;
  st_markdown (PyStr ARTICLE_HOW) ;;
  st_text_input (128279 :: lit " Article URL") ;;
  st_selectbox (127757 :: lit " Target Language") article_language_names 0 ;;
  st_button (128260 :: lit " Translate Article").

(** [article_translator_page()] *)
Definition article_translator_page (env : Env) (url : str)
    (target_language : Language) (clicked : bool) : M unit :=
  article_translator_header env ;;
  article_translator_action env url target_language clicked ;;
  st_markdown RULE.

(** Lines 226-266 of [document_translator_page], down to the button. *)
Definition document_translator_header (env : Env) : M unit :=
  st_title (128196 :: lit " Word Document Translator") ;;
  lottie_doc <- load_lottie env DOCUMENT_ANIMATION ;;
  st_lottie env lottie_doc 200 ;;
  st_markdown (PyStr DOCUMENT_HOW) ;;
  st_file_uploader (128206 :: lit " Upload Word file") [lit "docx"] ;;
  st_columns 2 ;;
  st_selectbox (128292 :: lit " Source language") document_language_names 0 ;;
  st_selectbox (128292 :: lit " Target language") document_language_names 4 ;;
  st_button (128260 :: lit " Translate").

(** [document_translator_page()] *)
Definition document_translator_page (env : Env) (file : option bytes)
    (source_language target_language : Language) (clicked : bool) : M unit :=
  document_translator_header env ;;
  document_translator_action env file source_language target_language clicked ;;
  st_markdown RULE.

(* ================================================================= *)
(** * The vocabulary of the specification *)

(** ** Text and documents *)

(** The segments of a text: the pieces between its newline characters, none
    of which holds a newline. *)
Definition newline_segments (t : str) (segments : list str) : Prop :=
  segments <> []
  /\ Forall (fun seg => ~ In NEWLINE seg) segments
  /\ join [NEWLINE] segments = t.

(** The characters a paragraph can be written with: tab, newline, carriage
    return, and the code points from U+0020 on that are neither surrogates
    nor U+FFFE nor U+FFFF. *)
Definition xml_compatible (c : Z) : Prop :=
  (c = 9 \/ c = 10 \/ c = 13 \/ 32 <= c)
  /\ ~ (55296 <= c <= 57343)
  /\ c <> 65534 /\ c <> 65535
  /\ c <= 1114111.

(** A text as a paragraph reports it once written: a carriage return reads
    as a newline. *)
Definition read_back (s : str) : str :=
  map (fun c => if c =? 13 then 10 else c) s.

(** A string without surrounding whitespace starts with a character that is
    not a space, unless it is empty. *)
Definition head_ok (s : str) : Prop :=
  match s with [] => True | c :: _ => isspace c = false end.

(** ** Pages *)

(** The element without the tags named in [names], at any depth. *)
Fixpoint prune (names : list str) (n : node) : node :=
  match n with
  | Tag name cs =>
      if name_in name names then Detached else Tag name (map (prune names) cs)
  | _ => n
  end.

(** The visible text nodes of an element, in document order: the strings of
    the interesting classes that are not inside a tag named in [names]. *)
Fixpoint visible_strings (names : list str) (n : node) : list str :=
  match n with
  | String_ k s => if interesting k then [s] else []
  | Tag name cs =>
      if name_in name names then [] else flat_map (visible_strings names) cs
  | Detached => []
  end.







(** The strings [get_text] keeps. *)
Definition kept (l : list (string_kind * str)) : list str :=
  map snd (filter (fun ks => interesting (fst ks)) l).

(** ** Provider answers *)

(** The body [[{"translations": [{"text": v}]}]] of the phrase provider:
    the [v] it holds, if it has that shape. *)
Definition phrase_answer (r : Response) : option pyvalue :=
  match response_json r with
  | Some (PyList (PyDict first :: _)) =>
      match dict_get first (lit "translations") with
      | Some (PyList (PyDict translation :: _)) =>
          dict_get translation (lit "text")
      | _ => None
      end
  | _ => None
  end.

(** The body [{"choices": [{"message": {"content": v}}]}] of the generative
    provider: the [v] it holds, if it has that shape. *)
Definition completion_answer (r : Response) : option pyvalue :=
  match response_json r with
  | Some (PyDict answer) =>
      match dict_get answer (lit "choices") with
      | Some (PyList (PyDict choice :: _)) =>
          match dict_get choice (lit "message") with
          | Some (PyDict msg) => dict_get msg (lit "content")
          | _ => None
          end
      | _ => None
      end
  | _ => None
  end.

(** What a subscript or [response.json()] raises on a body of another
    shape. *)
Definition is_shape_error (e : exn) : bool :=
  match e with
  | KeyError _ | IndexError | TypeError
  | RequestException (JSONDecodeError _) => true
  | _ => false
  end.

(** The statuses for which [raise_for_status] raises. *)
Definition error_status (r : Response) : Prop := 400 <= status_code r < 600.

(** The statuses HTTP calls successful. *)
Definition success_status (r : Response) : Prop := 200 <= status_code r < 300.

(** The request body of the generative call, as section 6 of the
    specification writes it. *)
Definition completion_body (text language_label : str) : pyvalue :=
  PyDict
    [ (lit "messages",
       PyList
         [ PyDict
             [ (lit "role", PyStr (lit "system"));
               (lit "content",
                PyList
                  [ PyDict
                      [ (lit "type", PyStr (lit "text"));
                        (lit "text",
                         PyStr (lit "You act as a text translator")) ] ]) ];
           PyDict
             [ (lit "role", PyStr (lit "user"));
               (lit "content",
                PyList
                  [ PyDict
                      [ (lit "type", PyStr (lit "text"));
                        (lit "text",
                         PyStr
                           (lit "translate: " ++ text ++ lit " to "
                            ++ language_label
                            ++ lit " language and respond only with the translation in markdown format")) ] ]) ] ]);
      (lit "temperature", PyFloat (9 # 10));
      (lit "top_p", PyFloat (95 # 100));
      (lit "max_tokens", PyInt 900) ].

(** ** Traces *)

(** The requests sent to a translation provider. *)
Definition posts (tr : list event) : list PostRequest :=
  flat_map (fun e => match e with Post r => [r] | _ => [] end) tr.

(** The artifacts handed to the user. *)
Definition downloads (tr : list event) : list Download :=
  flat_map
    (fun e => match e with Widget (DownloadButton d) => [d] | _ => [] end) tr.

(** The page reports the failure [e]. *)
Definition failed (e : exn) : event :=
  Widget (Error AN_ERROR_OCCURRED (Some e)).

(** A stage of the article pipeline fails with [e] in the state [s']:
    extraction, or translation of the extracted text, or the encoding of the
    translation once it is displayed. *)
Inductive article_failure (env : Env) (url : str) (target_language : Language)
    (s : State) : exn -> State -> Prop :=
| article_extraction_fails e s1 :
    ArticlesTranslator.extract_text env (ArticlesTranslator.init env) url s
    = (Raise e, s1) ->
    article_failure env url target_language s e s1
| article_translation_fails text s1 e s2 :
    ArticlesTranslator.extract_text env (ArticlesTranslator.init env) url s
    = (Ok text, s1) ->
    ArticlesTranslator.translate_text env (ArticlesTranslator.init env) text
      (article_languages target_language) s1
    = (Raise e, s2) ->
    article_failure env url target_language s e s2
| article_building_fails text s1 translation s2 e :
    ArticlesTranslator.extract_text env (ArticlesTranslator.init env) url s
    = (Ok text, s1) ->
    ArticlesTranslator.translate_text env (ArticlesTranslator.init env) text
      (article_languages target_language) s1
    = (Ok translation, s2) ->
    encode translation = Raise e ->
    article_failure env url target_language s e
      (log (log s2 (Widget (Markdown (PyStr (lit "### Translation Result")))))
           (Widget (Markdown translation))).

(** The state of the document page once the translation is displayed. *)
Definition translation_shown (original_text : str) (translation : pyvalue)
    (s : State) : State :=
  log (log (log (log s
    (Widget (Markdown (PyStr (lit "### Original Text")))))
    (Widget (TextArea (lit "original text") (PyStr original_text))))
    (Widget (Markdown (PyStr (lit "### Translation Result")))))
    (Widget (TextArea (lit "translation") translation)).

(** A stage of the document pipeline fails with [e] in the state [s']:
    reading the document, or translating its text, or rebuilding a document
    from the translation, or serializing the rebuilt document. *)
Inductive document_failure (env : Env) (file : bytes)
    (source_language target_language : Language) (s : State)
  : exn -> State -> Prop :=
| document_extraction_fails e :
    docx_Document env file = Raise e ->
    document_failure env file source_language target_language s e s
| document_translation_fails doc e s2 :
    docx_Document env file = Ok doc ->
    DocumentsTranslator.translate_text env (DocumentsTranslator.init env)
      (join [NEWLINE] (paragraph_texts doc))
      (document_languages source_language)
      (document_languages target_language) s
    = (Raise e, s2) ->
    document_failure env file source_language target_language s e s2
| document_building_fails doc translation s2 e :
    docx_Document env file = Ok doc ->
    DocumentsTranslator.translate_text env (DocumentsTranslator.init env)
      (join [NEWLINE] (paragraph_texts doc))
      (document_languages source_language)
      (document_languages target_language) s
    = (Ok translation, s2) ->
    document_builder translation = Raise e ->
    document_failure env file source_language target_language s e
      (translation_shown (join [NEWLINE] (paragraph_texts doc)) translation s2)
| document_saving_fails doc translation s2 translated_doc e :
    docx_Document env file = Ok doc ->
    DocumentsTranslator.translate_text env (DocumentsTranslator.init env)
      (join [NEWLINE] (paragraph_texts doc))
      (document_languages source_language)
      (document_languages target_language) s
    = (Ok translation, s2) ->
    document_builder translation = Ok translated_doc ->
    docx_save env translated_doc = Raise e ->
    document_failure env file source_language target_language s e
      (translation_shown (join [NEWLINE] (paragraph_texts doc)) translation s2).

(** ** Counting *)

(** The lines a paragraph contributes to the joined text: one more than it
    has newline characters. *)
Definition lines_of (p : Paragraph) : nat := S (count NEWLINE (text p)).

(** A paragraph of one line: its text holds neither a newline nor a
    carriage return, and its characters can be written. *)
Definition plain_paragraph (p : Paragraph) : Prop :=
  ~ In NEWLINE (text p) /\ ~ In 13 (text p) /\ Forall xml_compatible (text p).

(** A run of a page adds no artifact, or one. *)
Definition at_most_one_more (before after : list Download) : Prop :=
  after = before \/ exists d, after = before ++ [d].

Definition is_byte (b : Z) : Prop := 0 <= b <= 255.

(* ================================================================= *)
(** * Sample worlds

    Concrete environments on which the program is run below. *)

Definition answer (status : Z) (body : option pyvalue) : Response :=
  {| status_code := status;
     reason := [];
     response_text := [];
     response_json := body |}.

(** A world that gives the same answer to every call of a kind.  The
    configuration is set; saving a document gives its lines as stand-in
    bytes. *)
Definition world (get_answer post_answer : requests_exception + Response)
    (page : soup) (document : result Document) : Env :=
  {| getenv := fun _ => Some (lit "https://provider.example");
     requests_get := fun _ => get_answer;
     requests_post := fun _ => post_answer;
     html_parser := fun _ => inr page;
     docx_Document := fun _ => document;
     docx_save := fun d => Ok (join [NEWLINE] (paragraph_texts d));
     uuid4 := fun n => str_of_int (Z.of_nat n);
     lottie_component := fun _ _ => Ok tt |}.

(** [<p>Hello</p><script>evil()</script>] *)
Definition hello_page : soup :=
  [ Tag (lit "p") [String_ NavigableString (lit "Hello")];
    Tag (lit "script") [String_ Script (lit "evil()")] ].


(** [[{"translations": [{"text": "Bonjour"}]}]] *)
Definition bonjour : pyvalue :=
  PyList [ PyDict [ (lit "translations",
                     PyList [ PyDict [ (lit "text", PyStr (lit "Bonjour")) ] ]) ] ].

(** [{"choices": [{"message": {"content": "Bonjour"}}]}] *)
Definition bonjour_completion : pyvalue :=
  PyDict [ (lit "choices",
            PyList [ PyDict [ (lit "message",
                               PyDict [ (lit "content", PyStr (lit "Bonjour")) ]) ] ]) ].

Definition hello_document : Document :=
  {| paragraphs := [ {| text := lit "Hello" |} ] |}.

Definition unreachable : requests_exception := ConnectionError (lit "unreachable").

(** A world whose translation provider answers [r]. *)
Definition provider_world (r : Response) : Env :=
  world (inr (answer 200 None)) (inr r) hello_page (Ok hello_document).

(** A world whose web server answers [r]. *)
Definition web_world (r : requests_exception + Response) : Env :=
  world r (inr (answer 200 (Some bonjour_completion))) hello_page
        (Ok hello_document).

(** A world where no environment variable is set. *)
Definition unconfigured_world : Env :=
  {| getenv := fun _ => None;
     requests_get := fun _ => inr (answer 404 None);
     requests_post := fun _ => inl unreachable;
     html_parser := fun _ => inr hello_page;
     docx_Document := fun _ => Ok hello_document;
     docx_save := fun d => Ok (join [NEWLINE] (paragraph_texts d));
     uuid4 := fun n => str_of_int (Z.of_nat n);
     lottie_component := fun _ _ => Ok tt |}.

(** A world whose translation provider cannot be reached. *)
Definition offline_provider_world : Env :=
  world (inr (answer 200 None)) (inl unreachable) hello_page (Ok hello_document).

(** A document with a blank paragraph in the middle. *)
Definition three_paragraphs : Document :=
  {| paragraphs :=
       [ {| text := lit "Hello" |}; {| text := [] |}; {| text := lit "World" |} ] |}.


(* ================================================================= *)
(** * Properties *)

Unset Implicit Arguments.

(** ** Splitting and joining *)

Lemma split_not_nil (sep : Z) (s : str) : split sep s <> [].
Proof.
  destruct s as [|c s]; simpl; [discriminate|].
  destruct (c =? sep); [discriminate|].
  destruct (split sep s); discriminate.
Qed.

Lemma join_cons (sep p : str) (rest : list str) :
  rest <> [] -> join sep (p :: rest) = p ++ sep ++ join sep rest.
Proof. destruct rest; [congruence | reflexivity]. Qed.

Lemma join_split (sep : Z) (s : str) : join [sep] (split sep s) = s.
Proof.
  induction s as [|c s IH]; simpl; [reflexivity|].
  destruct (Z.eqb_spec c sep) as [->|Hne].
  - rewrite join_cons by apply split_not_nil. simpl. now rewrite IH.
  - pose proof (split_not_nil sep s) as Hnil.
    destruct (split sep s) as [|seg segs]; [congruence|].
    destruct segs as [|seg' segs].
    + simpl in *. now rewrite IH.
    + change (join [sep] ((c :: seg) :: seg' :: segs))
        with (c :: (seg ++ [sep] ++ join [sep] (seg' :: segs))).
      change (join [sep] (seg :: seg' :: segs))
        with (seg ++ [sep] ++ join [sep] (seg' :: segs)) in IH.
      now rewrite IH.
Qed.

Lemma split_free (sep : Z) (seg : str) :
  ~ In sep seg -> split sep seg = [seg].
Proof.
  induction seg as [|c seg IH]; simpl; intros Hin; [reflexivity|].
  destruct (Z.eqb_spec c sep) as [->|Hne]; [tauto|].
  rewrite IH by tauto. reflexivity.
Qed.

Lemma split_app (sep : Z) (seg rest : str) :
  ~ In sep seg -> split sep (seg ++ sep :: rest) = seg :: split sep rest.
Proof.
  induction seg as [|c seg IH]; simpl; intros Hin.
  - now rewrite Z.eqb_refl.
  - destruct (Z.eqb_spec c sep) as [->|Hne]; [tauto|].
    rewrite IH by tauto. reflexivity.
Qed.

Lemma split_join (sep : Z) (segs : list str) :
  segs <> [] -> Forall (fun seg => ~ In sep seg) segs ->
  split sep (join [sep] segs) = segs.
Proof.
  induction segs as [|seg segs IH]; intros Hnil Hfree; [congruence|].
  inversion Hfree as [|? ? Hseg Hrest]; subst.
  destruct segs as [|seg' segs].
  - simpl. now apply split_free.
  - rewrite join_cons by discriminate.
    change (seg ++ [sep] ++ join [sep] (seg' :: segs))
      with (seg ++ sep :: join [sep] (seg' :: segs)).
    rewrite split_app by assumption.
    rewrite IH by (assumption || discriminate). reflexivity.
Qed.

Lemma split_segments_free (sep : Z) (s : str) :
  Forall (fun seg => ~ In sep seg) (split sep s).
Proof.
  induction s as [|c s IH]; simpl.
  - constructor; [tauto | constructor].
  - destruct (Z.eqb_spec c sep) as [->|Hne].
    + constructor; [tauto | assumption].
    + destruct (split sep s) as [|seg segs].
      * constructor; [simpl; intuition congruence | constructor].
      * inversion IH; subst. constructor; [simpl; intuition congruence | assumption].
Qed.

Lemma length_split (sep : Z) (s : str) :
  List.length (split sep s) = S (count sep s).
Proof.
  unfold count. induction s as [|c s IH]; simpl; [reflexivity|].
  rewrite (Z.eqb_sym sep c).
  destruct (c =? sep); simpl.
  - now rewrite IH.
  - pose proof (split_not_nil sep s) as Hnil.
    destruct (split sep s); [congruence | exact IH].
Qed.

(** ** The document extractor *)

Lemma length_paragraphs (d : Document) :
  List.length (paragraphs d) = List.length (paragraph_texts d).
Proof. unfold paragraph_texts. now rewrite length_map. Qed.

(** C4.  From a document of N paragraphs the extractor returns N strings,
    the [i]-th being the text of the [i]-th paragraph: nothing is filtered,
    a blank paragraph gives an empty string. *)
Theorem paragraph_texts_in_order (doc : Document) :
  List.length (paragraph_texts doc) = List.length (paragraphs doc)
  /\ forall i : nat,
       nth_error (paragraph_texts doc) i
       = option_map text (nth_error (paragraphs doc) i).
Proof.
  split.
  - symmetry. apply length_paragraphs.
  - intros i. unfold paragraph_texts. apply nth_error_map.
Qed.

(** ** UTF-8: decoding what was encoded *)

Lemma in_range_true lo hi b : lo <= b <= hi -> in_range lo hi b = true.
Proof. intros. unfold in_range. apply andb_true_iff. rewrite !Z.leb_le. lia. Qed.

Lemma in_range_false lo hi b : b < lo \/ hi < b -> in_range lo hi b = false.
Proof. intros. unfold in_range. apply andb_false_iff. rewrite !Z.leb_gt. lia. Qed.

Lemma decode_1 (b0 : Z) (rest : bytes) :
  0 <= b0 <= 127 ->
  utf8_decode (b0 :: rest) = option_map (cons b0) (utf8_decode rest).
Proof. intros H. cbn [utf8_decode]. now rewrite in_range_true. Qed.

Lemma decode_2 (q r : Z) (rest : bytes) :
  2 <= q <= 31 -> 0 <= r <= 63 ->
  utf8_decode (192 + q :: 128 + r :: rest)
  = option_map (cons (q * 64 + r)) (utf8_decode rest).
Proof.
  intros Hq Hr. cbn [utf8_decode].
  rewrite in_range_false, in_range_true by lia.
  unfold is_continuation. fold (in_range 128 191 (128 + r)).
  rewrite in_range_true by lia.
  do 2 f_equal. lia.
Qed.

Lemma decode_3 (q r2 r1 : Z) (rest : bytes) :
  0 <= q <= 15 -> 0 <= r2 <= 63 -> 0 <= r1 <= 63 ->
  (q = 0 -> 32 <= r2) -> (q = 13 -> r2 <= 31) ->
  utf8_decode (224 + q :: 128 + r2 :: 128 + r1 :: rest)
  = option_map (cons (q * 4096 + r2 * 64 + r1)) (utf8_decode rest).
Proof.
  intros Hq H2 H1 Hlow Hsur. cbn [utf8_decode].
  rewrite in_range_false, in_range_false, in_range_true by lia.
  unfold is_continuation. fold (in_range 128 191 (128 + r1)).
  rewrite (in_range_true 128 191) by lia.
  assert (Hb : in_range (if 224 + q =? 224 then 160 else 128)
                        (if 224 + q =? 237 then 159 else 191) (128 + r2) = true).
  { apply in_range_true.
    destruct (Z.eqb_spec (224 + q) 224); destruct (Z.eqb_spec (224 + q) 237); lia. }
  rewrite Hb. cbn [andb]. do 2 f_equal. lia.
Qed.

Lemma decode_4 (q r3 r2 r1 : Z) (rest : bytes) :
  0 <= q <= 4 -> 0 <= r3 <= 63 -> 0 <= r2 <= 63 -> 0 <= r1 <= 63 ->
  (q = 0 -> 16 <= r3) -> (q = 4 -> r3 <= 15) ->
  utf8_decode (240 + q :: 128 + r3 :: 128 + r2 :: 128 + r1 :: rest)
  = option_map (cons (q * 262144 + r3 * 4096 + r2 * 64 + r1)) (utf8_decode rest).
Proof.
  intros Hq H3 H2 H1 Hlow Hhigh. cbn [utf8_decode].
  rewrite in_range_false, in_range_false, in_range_false, in_range_true by lia.
  unfold is_continuation.
  fold (in_range 128 191 (128 + r1)). fold (in_range 128 191 (128 + r2)).
  rewrite !(in_range_true 128 191) by lia.
  assert (Hb : in_range (if 240 + q =? 240 then 144 else 128)
                        (if 240 + q =? 244 then 143 else 191) (128 + r3) = true).
  { apply in_range_true.
    destruct (Z.eqb_spec (240 + q) 240); destruct (Z.eqb_spec (240 + q) 244); lia. }
  rewrite Hb. cbn [andb]. do 2 f_equal. lia.
Qed.

Lemma Some_inj (A : Type) (x y : A) : Some x = Some y -> x = y.
Proof. congruence. Qed.

Lemma is_scalar_spec (c : Z) :
  is_scalar c = true <-> (0 <= c < 55296 \/ 57344 <= c <= 1114111).
Proof.
  unfold is_scalar, is_code_point, is_surrogate.
  rewrite andb_true_iff, negb_true_iff, andb_true_iff, andb_false_iff.
  rewrite !Z.leb_le, !Z.leb_gt. lia.
Qed.

Lemma decode_encode_code_point (c : Z) (bs rest : bytes) :
  encode_code_point c = Some bs ->
  utf8_decode (bs ++ rest) = option_map (cons c) (utf8_decode rest).
Proof.
  unfold encode_code_point.
  destruct (is_scalar c) eqn:Hs; simpl negb; cbv iota; [|discriminate].
  apply is_scalar_spec in Hs.
  pose proof (Z.div_mod c 64 ltac:(lia)) as E1.
  pose proof (Z.mod_pos_bound c 64 ltac:(lia)) as B1.
  pose proof (Z.div_mod (c / 64) 64 ltac:(lia)) as E2.
  pose proof (Z.mod_pos_bound (c / 64) 64 ltac:(lia)) as B2.
  pose proof (Z.div_mod (c / 64 / 64) 64 ltac:(lia)) as E3.
  pose proof (Z.mod_pos_bound (c / 64 / 64) 64 ltac:(lia)) as B3.
  replace (c / 4096) with (c / 64 / 64) by (rewrite Z.div_div by lia; reflexivity).
  replace (c / 262144) with (c / 64 / 64 / 64)
    by (rewrite !Z.div_div by lia; reflexivity).
  set (q1 := c / 64) in *. set (r1 := c mod 64) in *.
  set (q2 := q1 / 64) in *. set (r2 := q1 mod 64) in *.
  set (q3 := q2 / 64) in *. set (r3 := q2 mod 64) in *.
  destruct (Z.ltb_spec c 128); [|destruct (Z.ltb_spec c 2048);
                                   [|destruct (Z.ltb_spec c 65536)]];
    intros Hbs; apply Some_inj in Hbs; subst bs; cbn [app].
  - rewrite decode_1 by lia. reflexivity.
  - rewrite decode_2 by lia. do 2 f_equal. lia.
  - rewrite decode_3 by lia. do 2 f_equal. lia.
  - rewrite decode_4 by lia. do 2 f_equal. lia.
Qed.

Lemma encode_code_point_scalar (c : Z) :
  is_scalar c = true -> exists bs, encode_code_point c = Some bs.
Proof.
  intros Hs. unfold encode_code_point. rewrite Hs. cbn [negb].
  destruct (c <? 128); [eauto|].
  destruct (c <? 2048); [eauto|].
  destruct (c <? 65536); eauto.
Qed.

Lemma encode_code_point_not_scalar (c : Z) :
  is_scalar c = false -> encode_code_point c = None.
Proof. intros Hs. unfold encode_code_point. now rewrite Hs. Qed.

Lemma utf8_decode_encode_from (s : str) (pos : nat) (bs : bytes) :
  utf8_encode_from pos s = inr bs -> utf8_decode bs = Some s.
Proof.
  revert pos bs. induction s as [|c s IH]; intros pos bs; cbn [utf8_encode_from].
  - intros [= <-]. reflexivity.
  - destruct (encode_code_point c) as [cbs|] eqn:Hc; [|discriminate].
    destruct (utf8_encode_from (S pos) s) as [p|rest] eqn:Hrest; [discriminate|].
    intros [= <-].
    rewrite (decode_encode_code_point c cbs rest Hc), (IH _ _ Hrest). reflexivity.
Qed.

Lemma utf8_encode_from_scalars (s : str) (pos : nat) :
  Forall (fun c => is_scalar c = true) s ->
  exists bs, utf8_encode_from pos s = inr bs.
Proof.
  intros Hs. revert pos. induction Hs as [|c s Hc _ IH]; intros pos;
    cbn [utf8_encode_from]; [eauto|].
  destruct (encode_code_point_scalar c Hc) as [cbs ->].
  destruct (IH (S pos)) as [rest ->]. eauto.
Qed.

Lemma utf8_encode_from_not_scalar (s : str) (pos : nat) :
  Exists (fun c => is_scalar c = false) s ->
  exists p, utf8_encode_from pos s = inl p.
Proof.
  intros Hs. revert pos. induction Hs as [c s Hc|c s _ IH]; intros pos;
    cbn [utf8_encode_from].
  - rewrite (encode_code_point_not_scalar c Hc). eauto.
  - destruct (encode_code_point c); [|eauto].
    destruct (IH (S pos)) as [p ->]. eauto.
Qed.

(** The strict encoder raises exactly on the strings that hold a code point
    which is not a scalar value. *)
Lemma encode_raises (s : str) :
  Exists (fun c => is_scalar c = false) s ->
  exists pos, encode (PyStr s) = Raise (UnicodeEncodeError s pos).
Proof.
  intros Hs. unfold encode, utf8_encode.
  destruct (utf8_encode_from_not_scalar s 0%nat Hs) as [p ->]. eauto.
Qed.

(** C9, as the code has it.  A translated string made of Unicode scalar
    values (no surrogate code point) is encoded to bytes that decode, as
    UTF-8, to the same string. *)
Theorem markdown_roundtrip (translation : str) :
  Forall (fun c => is_scalar c = true) translation ->
  exists data,
    encode (PyStr translation) = Ok data
    /\ utf8_decode data = Some translation.
Proof.
  intros Hs. unfold encode, utf8_encode.
  destruct (utf8_encode_from_scalars translation 0%nat Hs) as [bs Hbs].
  rewrite Hbs. exists bs. split; [reflexivity|].
  exact (utf8_decode_encode_from translation 0%nat bs Hbs).
Qed.

Lemma markdown_roundtrip_witness :
  Forall (fun c => is_scalar c = true) [233; 8364; 128512; 10; 65]
  /\ exists data,
       encode (PyStr [233; 8364; 128512; 10; 65]) = Ok data
       /\ utf8_decode data = Some [233; 8364; 128512; 10; 65].
Proof.
  assert (H : Forall (fun c => is_scalar c = true) [233; 8364; 128512; 10; 65])
    by (repeat constructor).
  split; [exact H | exact (markdown_roundtrip _ H)].
Defined.

(** C9 as stated fails on a string that holds a surrogate code point, which
    a Python [str] may (the JSON answer ["\ud800"] parses to one): the strict
    encoder raises and there are no bytes to decode. *)
Lemma markdown_roundtrip_surrogate :
  Forall (fun c => is_code_point c = true) [55296]
  /\ encode (PyStr [55296]) = Raise (UnicodeEncodeError [55296] 0)
  /\ forall data, encode (PyStr [55296]) <> Ok data.
Proof.
  split; [repeat constructor|]. split; [reflexivity|].
  intros data. discriminate.
Qed.

(** ** The document builder *)

Lemma xml_compatible_accepted (c : Z) :
  xml_compatible c <-> xml_char c = true /\ is_scalar c = true.
Proof.
  unfold xml_compatible, xml_char. rewrite is_scalar_spec.
  rewrite !orb_true_iff, !andb_true_iff, !negb_true_iff.
  rewrite !Z.eqb_eq, !Z.eqb_neq, Z.leb_le. lia.
Qed.

Lemma utf8_encode_from_inr (s : str) (pos : nat) (bs : bytes) :
  utf8_encode_from pos s = inr bs -> Forall (fun c => is_scalar c = true) s.
Proof.
  revert pos bs. induction s as [|c s IH]; intros pos bs; cbn [utf8_encode_from];
    [constructor|].
  destruct (encode_code_point c) as [cbs|] eqn:Hc; [|discriminate].
  destruct (utf8_encode_from (S pos) s) as [p|rest] eqn:Hrest; [discriminate|].
  intros _. constructor; [|exact (IH _ _ Hrest)].
  destruct (is_scalar c) eqn:Hs; [reflexivity|].
  rewrite (encode_code_point_not_scalar c Hs) in Hc. discriminate.
Qed.

Lemma add_t_spec (chunk : str) :
  add_t chunk = Ok tt <-> Forall xml_compatible chunk.
Proof.
  unfold add_t, utf8_encode. split.
  - destruct (utf8_encode_from 0 chunk) as [p|bs] eqn:Hbs; [discriminate|].
    destruct (forallb xml_char chunk) eqn:Hx; [|discriminate]. intros _.
    pose proof (utf8_encode_from_inr chunk 0%nat bs Hbs) as Hs.
    rewrite forallb_forall in Hx. rewrite Forall_forall in *.
    intros c Hin. apply xml_compatible_accepted. auto.
  - intros Hc.
    assert (Hs : Forall (fun c => is_scalar c = true) chunk).
    { rewrite Forall_forall in *. intros c Hin.
      now apply (proj1 (xml_compatible_accepted c)); auto. }
    destruct (utf8_encode_from_scalars chunk 0%nat Hs) as [bs ->].
    replace (forallb xml_char chunk) with true; [reflexivity|].
    symmetry. apply forallb_forall. rewrite Forall_forall in Hc.
    intros c Hin. now apply (proj1 (xml_compatible_accepted c)); auto.
Qed.

Lemma add_t_result (chunk : str) : add_t chunk = Ok tt \/ exists e, add_t chunk = Raise e.
Proof. destruct (add_t chunk) as [[]|e]; eauto. Qed.

Lemma add_items_app (a b : list run_item) :
  add_items (a ++ b)
  = match add_items a with Ok _ => add_items b | Raise e => Raise e end.
Proof.
  induction a as [|[chunk| |] a IH]; cbn [app add_items]; auto.
  destruct (add_t chunk) as [[]|e]; auto.
Qed.

Lemma flush_text (buffer : str) : flat_map item_text (flush buffer) = buffer.
Proof. destruct buffer; [reflexivity|]. cbn. now rewrite app_nil_r. Qed.

Lemma flush_accepted (buffer : str) :
  add_items (flush buffer) = Ok tt <-> Forall xml_compatible buffer.
Proof.
  destruct buffer as [|c buffer]; cbn [flush add_items].
  - split; [constructor | reflexivity].
  - rewrite <- add_t_spec. destruct (add_t (c :: buffer)) as [[]|e];
      split; congruence.
Qed.

(** What a paragraph reports does not depend on the text being accepted. *)
Lemma run_items_text (text buffer : str) :
  flat_map item_text (run_items buffer text) = buffer ++ read_back text.
Proof.
  revert buffer. induction text as [|c text IH]; intros buffer; cbn [run_items].
  - rewrite flush_text. cbn. now rewrite app_nil_r.
  - destruct (Z.eqb_spec c 9) as [->|H9].
    + rewrite flat_map_app, flush_text. cbn [flat_map item_text app].
      now rewrite IH.
    + destruct (Z.eqb_spec c 13) as [->|H13]; cbn [orb].
      * rewrite flat_map_app, flush_text. cbn [flat_map item_text app].
        now rewrite IH.
      * destruct (Z.eqb_spec c NEWLINE) as [->|H10].
        -- rewrite flat_map_app, flush_text. cbn [flat_map item_text app].
           now rewrite IH.
        -- rewrite IH, <- app_assoc. cbn [read_back map app].
           apply Z.eqb_neq in H13. now rewrite H13.
Qed.

Lemma special_compatible (c : Z) : c = 9 \/ c = 13 \/ c = 10 -> xml_compatible c.
Proof. unfold xml_compatible. lia. Qed.

(** A run is accepted exactly when all its characters are. *)
Lemma run_items_accepted (text buffer : str) :
  add_items (run_items buffer text) = Ok tt
  <-> Forall xml_compatible (buffer ++ text).
Proof.
  revert buffer. induction text as [|c text IH]; intros buffer; cbn [run_items].
  - rewrite app_nil_r. apply flush_accepted.
  - assert (Hsplit : forall item,
               c = 9 \/ c = 13 \/ c = 10 -> add_items [item] = Ok tt ->
               (add_items (flush buffer ++ item :: run_items [] text) = Ok tt
                <-> Forall xml_compatible (buffer ++ c :: text))).
    { intros item Hc Hitem.
      change (item :: run_items [] text) with ([item] ++ run_items [] text).
      rewrite !add_items_app, Hitem, Forall_app, Forall_cons_iff.
      rewrite <- flush_accepted, <- (IH []).
      pose proof (special_compatible c Hc).
      destruct (add_items (flush buffer)) as [[]|e]; [tauto|].
      split; [discriminate | intros [? _]; discriminate]. }
    destruct (Z.eqb_spec c 9) as [->|H9]; [apply Hsplit; auto|].
    destruct (Z.eqb_spec c 13) as [->|H13]; cbn [orb]; [apply Hsplit; auto|].
    destruct (Z.eqb_spec c NEWLINE) as [->|H10]; [apply Hsplit; auto|].
    rewrite IH, <- app_assoc. reflexivity.
Qed.

Lemma add_paragraph_returns (d d' : Document) (t : str) :
  add_paragraph d t = Ok d' <->
  Forall xml_compatible t
  /\ d' = {| paragraphs := paragraphs d ++ [ {| text := read_back t |} ] |}.
Proof.
  unfold add_paragraph. rewrite <- (run_items_accepted t []), run_items_text.
  cbn [app]. destruct (add_items (run_items [] t)) as [[]|e].
  - split; [intros [= <-]; auto | intros [_ ->]; reflexivity].
  - split; [discriminate | intros [? _]; discriminate].
Qed.

Lemma add_paragraphs_returns (lines : list str) (d d' : Document) :
  add_paragraphs d lines = Ok d' <->
  Forall (Forall xml_compatible) lines
  /\ d' = {| paragraphs :=
               paragraphs d ++ map (fun l => {| text := read_back l |}) lines |}.
Proof.
  revert d. induction lines as [|l lines IH]; intros d; cbn [add_paragraphs map].
  - rewrite app_nil_r. destruct d as [ps]. cbn.
    split; [intros [= <-]; auto | intros [_ ->]; reflexivity].
  - rewrite Forall_cons_iff.
    destruct (add_paragraph d l) as [d1|e] eqn:H1.
    + apply add_paragraph_returns in H1. destruct H1 as [Hl ->].
      rewrite IH. cbn [paragraphs]. rewrite <- app_assoc. cbn [app]. tauto.
    + split; [discriminate|]. intros [[Hl _] _].
      assert (H : add_paragraph d l
                  = Ok {| paragraphs := paragraphs d ++ [ {| text := read_back l |} ] |})
        by now apply add_paragraph_returns.
      congruence.
Qed.

Lemma split_Forall (P : Z -> Prop) (sep : Z) (s : str) :
  Forall (Forall P) (split sep s) <-> Forall P (filter (fun c => negb (c =? sep)) s).
Proof.
  induction s as [|c s IH]; cbn [split filter].
  - split; repeat constructor.
  - destruct (Z.eqb_spec c sep) as [->|Hne]; cbn [negb].
    + rewrite Forall_cons_iff, IH. split; [tauto | intros; split; [constructor | assumption]].
    + pose proof (split_not_nil sep s) as Hnil.
      destruct (split sep s) as [|seg segs]; [congruence|].
      rewrite !Forall_cons_iff in *. rewrite <- IH. tauto.
Qed.

Lemma compatible_without_newlines (t : str) :
  Forall xml_compatible (filter (fun c => negb (c =? NEWLINE)) t)
  <-> Forall xml_compatible t.
Proof.
  induction t as [|c t IH]; cbn [filter]; [tauto|].
  destruct (Z.eqb_spec c NEWLINE) as [->|Hne]; cbn [negb];
    rewrite ?Forall_cons_iff, IH; [|tauto].
  assert (xml_compatible NEWLINE) by (apply special_compatible; auto). tauto.
Qed.

(** The builder returns a document exactly on the texts whose characters can
    all be written, and the document has one paragraph per line. *)
Lemma build_document_returns (t : str) (d : Document) :
  build_document t = Ok d <->
  Forall xml_compatible t
  /\ d = {| paragraphs := map (fun l => {| text := read_back l |}) (split NEWLINE t) |}.
Proof.
  unfold build_document. rewrite add_paragraphs_returns.
  rewrite split_Forall, compatible_without_newlines. reflexivity.
Qed.

Lemma build_document_texts (t : str) (d : Document) :
  build_document t = Ok d -> paragraph_texts d = map read_back (split NEWLINE t).
Proof.
  intros H. apply build_document_returns in H. destruct H as [_ ->].
  unfold paragraph_texts. cbn [paragraphs]. rewrite map_map. reflexivity.
Qed.

(** A check that computes. *)
Lemma xml_compatible_check (s : str) :
  forallb (fun c => xml_char c && is_scalar c) s = true ->
  Forall xml_compatible s.
Proof.
  rewrite forallb_forall, Forall_forall. intros H c Hin.
  apply xml_compatible_accepted. apply andb_true_iff. auto.
Qed.

Lemma read_back_fixed (s : str) : ~ In 13 s -> read_back s = s.
Proof.
  induction s as [|c s IH]; cbn [read_back map]; intros Hin; [reflexivity|].
  destruct (Z.eqb_spec c 13) as [->|Hne]; [cbn in Hin; tauto|].
  fold (read_back s). rewrite IH; [reflexivity|]. cbn in Hin. tauto.
Qed.


(** Every text has segments, and [split] computes them. *)
Lemma newline_segments_split (t : str) : newline_segments t (split NEWLINE t).
Proof.
  split; [apply split_not_nil|].
  split; [apply split_segments_free | apply join_split].
Qed.





(** C10, as the code has it.  For a translated string whose characters can
    all be written in a paragraph, the builder produces a document with one
    paragraph more than the string has newline characters; whenever the
    builder returns a document, the string is of that kind and the document
    has that many paragraphs, so never zero; the empty string gives exactly
    one empty paragraph. *)
Theorem document_builder_paragraph_count :
  (forall t : str,
      Forall xml_compatible t ->
      exists doc,
        build_document t = Ok doc
        /\ List.length (paragraphs doc) = (count NEWLINE t + 1)%nat)
  /\ (forall (t : str) (doc : Document),
        build_document t = Ok doc ->
        Forall xml_compatible t
        /\ List.length (paragraphs doc) = (count NEWLINE t + 1)%nat
        /\ paragraphs doc <> [])
  /\ build_document [] = Ok {| paragraphs := [ {| text := [] |} ] |}.
Proof.
  assert (Hlen : forall t doc, build_document t = Ok doc ->
                   List.length (paragraphs doc) = (count NEWLINE t + 1)%nat).
  { intros t doc H. apply build_document_returns in H. destruct H as [_ ->].
    cbn [paragraphs]. now rewrite length_map, length_split, Nat.add_1_r. }
  split; [|split; [|reflexivity]].
  - intros t Hok. eexists. split; [|apply Hlen].
    all: apply build_document_returns; split; [exact Hok | reflexivity].
  - intros t doc H. split; [now apply build_document_returns in H|].
    split; [now apply Hlen|].
    intros Hnil. apply Hlen in H. rewrite Hnil, Nat.add_1_r in H. discriminate.
Qed.

Lemma document_builder_paragraph_count_witness :
  Forall xml_compatible (lit "uno" ++ [NEWLINE; NEWLINE] ++ lit "dos")
  /\ exists doc,
       build_document (lit "uno" ++ [NEWLINE; NEWLINE] ++ lit "dos") = Ok doc
       /\ List.length (paragraphs doc) = 3%nat.
Proof.
  assert (Hok : Forall xml_compatible (lit "uno" ++ [NEWLINE; NEWLINE] ++ lit "dos"))
    by (apply xml_compatible_check; reflexivity).
  split; [exact Hok|].
  exact (proj1 document_builder_paragraph_count _ Hok).
Defined.

(** C10 as stated fails on a translation that holds a character which cannot
    be written, here a vertical tab: the builder raises, and there is no
    document of one paragraph. *)
Lemma document_builder_no_document :
  count NEWLINE [97; 11; 98] = 0%nat
  /\ build_document [97; 11; 98] = Raise XML_INCOMPATIBLE
  /\ forall doc, build_document [97; 11; 98] <> Ok doc.
Proof.
  split; [reflexivity|]. split; [reflexivity|]. intros doc. discriminate.
Qed.

(** ** Pages: what [decompose] leaves and what [get_text] collects *)

Section NodeInduction.
Variable P : node -> Prop.
Hypothesis P_string : forall k s, P (String_ k s).
Hypothesis P_tag : forall name cs, Forall P cs -> P (Tag name cs).
Hypothesis P_detached : P Detached.

Fixpoint node_induction (n : node) : P n :=
  match n with
  | String_ k s => P_string k s
  | Tag name cs =>
      P_tag name cs
        ((fix all (l : list node) : Forall P l :=
            match l with
            | [] => Forall_nil P
            | c :: l' => Forall_cons c (node_induction c) (all l')
            end) cs)
  | Detached => P_detached
  end.
End NodeInduction.

Lemma update_nth_app (A : Type) (g : A -> A) (pre : list A) (x : A) (l : list A) :
  update_nth (List.length pre) g (pre ++ x :: l) = pre ++ g x :: l.
Proof. induction pre as [|y pre IH]; simpl; [reflexivity | now rewrite IH]. Qed.

Lemma decompose_detached (ps : list path) :
  fold_left (fun n p => decompose_below p n) ps Detached = Detached.
Proof.
  induction ps as [|p ps IH]; simpl; [reflexivity|].
  destruct p; exact IH.
Qed.

Lemma decompose_inside (name : str) (ps : list path) (cs : list node) :
  Forall (fun p => p <> []) ps ->
  fold_left (fun n p => decompose_below p n) ps (Tag name cs)
  = Tag name (fold_left (fun s p => decompose p s) ps cs).
Proof.
  intros Hps. revert cs. induction Hps as [|p ps Hp _ IH]; intros cs; simpl.
  - reflexivity.
  - destruct p as [|i p]; [congruence|]. simpl. apply IH.
Qed.

Lemma paths_from_nonempty (f : node -> list path) (i : nat) (l : list node) :
  Forall (fun p => p <> []) (paths_from f i l).
Proof.
  revert i. induction l as [|c l IH]; intros i; simpl; [constructor|].
  apply Forall_app. split; [|apply IH].
  apply Forall_forall. intros p Hin. apply in_map_iff in Hin.
  destruct Hin as (q & <- & _). discriminate.
Qed.

Lemma decompose_sibling (i : nat) (ps : list path) (pre : list node)
    (c : node) (l : list node) :
  i = List.length pre ->
  fold_left (fun s p => decompose p s) (map (cons i) ps) (pre ++ c :: l)
  = pre ++ fold_left (fun n p => decompose_below p n) ps c :: l.
Proof.
  intros ->. revert c. induction ps as [|p ps IH]; intros c; simpl.
  - reflexivity.
  - rewrite update_nth_app. apply IH.
Qed.

Lemma decompose_siblings (names : list str) (l : list node) :
  Forall (fun n => fold_left (fun n p => decompose_below p n) (matching names n) n
                   = prune names n) l ->
  forall pre : list node,
    fold_left (fun s p => decompose p s)
              (paths_from (matching names) (List.length pre) l) (pre ++ l)
    = pre ++ map (prune names) l.
Proof.
  induction 1 as [|c l Hc _ IH]; intros pre; simpl.
  - reflexivity.
  - rewrite fold_left_app, decompose_sibling by reflexivity.
    rewrite Hc.
    specialize (IH (pre ++ [prune names c])).
    rewrite length_app, Nat.add_1_r, <- !app_assoc in IH. exact IH.
Qed.

Lemma decompose_matching (names : list str) (n : node) :
  fold_left (fun n p => decompose_below p n) (matching names n) n = prune names n.
Proof.
  induction n as [k s|name cs IH|] using node_induction; simpl; [reflexivity| |reflexivity].
  destruct (name_in name names); simpl.
  - apply decompose_detached.
  - rewrite decompose_inside by apply paths_from_nonempty.
    f_equal. exact (decompose_siblings names cs IH []).
Qed.

Lemma decompose_all_prune (names : list str) (page : soup) :
  decompose_all names page = map (prune names) page.
Proof.
  unfold decompose_all, find_all.
  apply (decompose_siblings names page) with (pre := []).
  apply Forall_forall. intros n _. apply decompose_matching.
Qed.

Lemma kept_app (a b : list (string_kind * str)) : kept (a ++ b) = kept a ++ kept b.
Proof. unfold kept. now rewrite filter_app, map_app. Qed.

Lemma kept_prune (names : list str) (n : node) :
  kept (strings (prune names n)) = visible_strings names n.
Proof.
  induction n as [k s|name cs IH|] using node_induction; simpl.
  - unfold kept. simpl. destruct (interesting k); reflexivity.
  - destruct (name_in name names); simpl; [reflexivity|].
    induction IH as [|c l Hc _ IHl]; simpl; [reflexivity|].
    now rewrite kept_app, Hc, IHl.
  - reflexivity.
Qed.

Lemma kept_prune_page (names : list str) (page : soup) :
  kept (flat_map strings (map (prune names) page))
  = flat_map (visible_strings names) page.
Proof.
  induction page as [|n page IH]; simpl; [reflexivity|].
  now rewrite kept_app, kept_prune, IH.
Qed.

Lemma visible_text_strings (page : soup) :
  ArticlesTranslator.visible_text page
  = join (lit " ")
      (filter nonempty
         (map strip
            (flat_map (visible_strings ArticlesTranslator.hidden_tags) page))).
Proof.
  unfold ArticlesTranslator.visible_text, get_text, all_strings.
  rewrite decompose_all_prune.
  fold (kept (flat_map strings (map (prune ArticlesTranslator.hidden_tags) page))).
  now rewrite kept_prune_page.
Qed.



(** ** Stripped strings *)

Lemma lstrip_head_ok (s : str) : head_ok (lstrip s).
Proof.
  induction s as [|c s IH]; simpl; [exact I|].
  destruct (isspace c) eqn:Hc; [exact IH | exact Hc].
Qed.

Lemma lstrip_fixed (s : str) : head_ok s -> lstrip s = s.
Proof. destruct s as [|c s]; simpl; [reflexivity|]. now intros ->. Qed.

Lemma lstrip_suffix (s : str) : exists pre, s = pre ++ lstrip s.
Proof.
  induction s as [|c s [pre IH]]; simpl; [now exists []|].
  destruct (isspace c).
  - exists (c :: pre). simpl. now f_equal.
  - now exists [].
Qed.

Lemma head_ok_app (a b : str) : a <> [] -> head_ok a -> head_ok (a ++ b).
Proof. destruct a; [congruence | auto]. Qed.

Lemma rev_not_nil (s : str) : s <> [] -> rev s <> [].
Proof.
  intros Hs Hr. apply Hs. rewrite <- (rev_involutive s), Hr. reflexivity.
Qed.

Lemma strip_ends (s : str) : head_ok (strip s) /\ head_ok (rev (strip s)).
Proof.
  unfold strip. split; [apply lstrip_head_ok|].
  assert (Ht : head_ok (rev (rstrip s))).
  { unfold rstrip. rewrite rev_involutive. apply lstrip_head_ok. }
  destruct (lstrip_suffix (rstrip s)) as [pre Hpre].
  destruct (lstrip (rstrip s)) as [|c t] eqn:Hl; [exact I|].
  rewrite Hpre, rev_app_distr in Ht.
  destruct (rev (c :: t)) as [|d u] eqn:Hr.
  - exfalso. apply (rev_not_nil (c :: t)); [discriminate | exact Hr].
  - exact Ht.
Qed.

Lemma strip_fixed (s : str) : head_ok s -> head_ok (rev s) -> strip s = s.
Proof.
  intros Hh Ht. unfold strip, rstrip.
  rewrite (lstrip_fixed (rev s)) by exact Ht.
  rewrite rev_involutive. now apply lstrip_fixed.
Qed.

Lemma join_ends (sep : str) (pieces : list str) :
  Forall (fun p => nonempty p = true /\ head_ok p /\ head_ok (rev p)) pieces ->
  head_ok (join sep pieces) /\ head_ok (rev (join sep pieces))
  /\ (pieces <> [] -> join sep pieces <> []).
Proof.
  induction 1 as [|p rest (Hne & Hh & Ht) _ (IHh & IHt & IHne)]; simpl.
  - repeat split; congruence.
  - assert (Hp : p <> []) by (destruct p; [discriminate | discriminate]).
    destruct rest as [|q rest].
    + repeat split; auto.
    + assert (Hj : join sep (q :: rest) <> []) by (apply IHne; discriminate).
      split; [now apply head_ok_app|].
      split.
      * rewrite !rev_app_distr, <- app_assoc.
        apply head_ok_app; [now apply rev_not_nil | exact IHt].
      * intros _ Hnil. apply app_eq_nil in Hnil. tauto.
Qed.

Lemma stripped_pieces (ss : list str) :
  Forall (fun p => nonempty p = true /\ head_ok p /\ head_ok (rev p))
         (filter nonempty (map strip ss)).
Proof.
  apply Forall_forall. intros p Hin. apply filter_In in Hin.
  destruct Hin as (Hin & Hne). apply in_map_iff in Hin.
  destruct Hin as (s & <- & _). split; [exact Hne | apply strip_ends].
Qed.

Lemma visible_text_trimmed (page : soup) :
  strip (ArticlesTranslator.visible_text page) = ArticlesTranslator.visible_text page.
Proof.
  rewrite visible_text_strings.
  destruct (join_ends (lit " ") _ (stripped_pieces
              (flat_map (visible_strings ArticlesTranslator.hidden_tags) page)))
    as (Hh & Ht & _).
  now apply strip_fixed.
Qed.











(** ** Subscripts on provider answers *)

Lemma seq_index_first (A : Type) (x : A) (l : list A) : seq_index (x :: l) 0 = Some x.
Proof.
  unfold seq_index. cbn [Z.ltb Z.compare Z.leb andb].
  replace (0 <? Z.of_nat (List.length (x :: l))) with true; [reflexivity|].
  symmetry. apply Z.ltb_lt. simpl List.length. lia.
Qed.

Lemma getitem_first_cons (x : pyvalue) (l : list pyvalue) :
  getitem (PyList (x :: l)) (KInt 0) = Ok x.
Proof. cbn [getitem]. now rewrite seq_index_first. Qed.

Ltac shape_error := eexists; split; reflexivity.

Lemma first_translation_answer (r : Response) (v : pyvalue) :
  phrase_answer r = Some v -> DocumentsTranslator.first_translation r = Ok v.
Proof.
  unfold phrase_answer, DocumentsTranslator.first_translation, json.
  destruct (response_json r) as [answer|]; [|discriminate].
  destruct answer as [| | | | |[|first rest]|]; try discriminate.
  destruct first as [| | | | | |d]; try discriminate.
  rewrite getitem_first_cons. cbn [getitem].
  destruct (dict_get d (lit "translations")) as [t|]; [|discriminate].
  destruct t as [| | | | |[|tr rest']|]; try discriminate.
  destruct tr as [| | | | | |d']; try discriminate.
  rewrite getitem_first_cons. cbn [getitem].
  now intros ->.
Qed.

Lemma first_translation_no_answer (r : Response) :
  phrase_answer r = None ->
  exists e, DocumentsTranslator.first_translation r = Raise e
            /\ is_shape_error e = true.
Proof.
  unfold phrase_answer, DocumentsTranslator.first_translation, json.
  destruct (response_json r) as [answer|]; [|intros _; shape_error].
  destruct answer as [| | | |s|[|first rest]|d]; try (intros _; shape_error).
  - intros _. cbn [getitem]. destruct (seq_index s 0); shape_error.
  - rewrite getitem_first_cons.
    destruct first as [| | | | | |d]; try (intros _; shape_error).
    cbn [getitem].
    destruct (dict_get d (lit "translations")) as [t|]; [|intros _; shape_error].
    destruct t as [| | | |s|[|tr rest']|d']; try (intros _; shape_error).
    + intros _. cbn [getitem]. destruct (seq_index s 0); shape_error.
    + rewrite getitem_first_cons.
      destruct tr as [| | | | | |d']; try (intros _; shape_error).
      cbn [getitem]. intros ->. shape_error.
Qed.

Lemma first_choice_answer (r : Response) (v : pyvalue) :
  completion_answer r = Some v -> ArticlesTranslator.first_choice r = Ok v.
Proof.
  unfold completion_answer, ArticlesTranslator.first_choice, json.
  destruct (response_json r) as [answer|]; [|discriminate].
  destruct answer as [| | | | | |d]; try discriminate.
  cbn [getitem].
  destruct (dict_get d (lit "choices")) as [cs|]; [|discriminate].
  destruct cs as [| | | | |[|choice rest]|]; try discriminate.
  destruct choice as [| | | | | |dc]; try discriminate.
  rewrite getitem_first_cons. cbn [getitem].
  destruct (dict_get dc (lit "message")) as [m|]; [|discriminate].
  destruct m as [| | | | | |dm]; try discriminate.
  cbn [getitem]. now intros ->.
Qed.

Lemma first_choice_no_answer (r : Response) :
  completion_answer r = None ->
  exists e, ArticlesTranslator.first_choice r = Raise e
            /\ is_shape_error e = true.
Proof.
  unfold completion_answer, ArticlesTranslator.first_choice, json.
  destruct (response_json r) as [answer|]; [|intros _; shape_error].
  destruct answer as [| | | | | |d]; try (intros _; shape_error).
  cbn [getitem].
  destruct (dict_get d (lit "choices")) as [cs|]; [|intros _; shape_error].
  destruct cs as [| | | |s|[|choice rest]|d']; try (intros _; shape_error).
  - intros _. cbn [getitem]. destruct (seq_index s 0); shape_error.
  - rewrite getitem_first_cons.
    destruct choice as [| | | | | |dc]; try (intros _; shape_error).
    cbn [getitem].
    destruct (dict_get dc (lit "message")) as [m|]; [|intros _; shape_error].
    destruct m as [| | | | | |dm]; try (intros _; shape_error).
    cbn [getitem]. intros ->. shape_error.
Qed.

Lemma shape_error_status (e : exn) : is_shape_error e = true -> exn_status e = None.
Proof. destruct e as [|[]| | | | | |]; simpl; congruence. Qed.

Lemma shape_error_not_translation_error (e : exn) (status : Z) :
  is_shape_error e = true -> e <> DocumentsTranslator.TranslationError status.
Proof. intros He ->. discriminate. Qed.

Lemma raise_for_status_error (r : Response) :
  error_status r -> raise_for_status r = Raise (RequestException (HTTPError r)).
Proof.
  unfold error_status, raise_for_status. intros H.
  replace (400 <=? status_code r) with true by (symmetry; apply Z.leb_le; lia).
  replace (status_code r <? 600) with true by (symmetry; apply Z.ltb_lt; lia).
  reflexivity.
Qed.

Lemma raise_for_status_pass (r : Response) :
  ~ error_status r -> raise_for_status r = Ok tt.
Proof.
  unfold error_status, raise_for_status. intros H.
  destruct (Z.leb_spec 400 (status_code r)); [|reflexivity].
  destruct (Z.ltb_spec (status_code r) 600); [lia | reflexivity].
Qed.

(** C1, as the code has it.  When the provider answers the request of
    [translate_text] with a response: a status other than 200 raises the
    exception built from that status, [Exception("Translation error:
    <status>")]; a status of 200 with a body of the expected shape returns
    the [text] of the first translation of the first element; a status of
    200 with a body of another shape raises what the subscripts or the JSON
    decoder raise ([KeyError], [IndexError], [TypeError], a decoding error),
    which is not the translation error. *)
Theorem phrase_translate_text (env : Env) (self : DocumentsTranslator.t)
    (text source_language target_language : str) (s : State)
    (url : str) (response : Response) :
  DocumentsTranslator.endpoint self = Some url ->
  requests_post env
    (DocumentsTranslator.request self (url ++ lit "/translate")
       (uuid4 env (uuids s)) text source_language target_language)
  = inr response ->
  let outcome :=
    fst (DocumentsTranslator.translate_text env self text
           source_language target_language s) in
  (status_code response <> 200 ->
   outcome = Raise (DocumentsTranslator.TranslationError (status_code response)))
  /\ (status_code response = 200 ->
      forall v, phrase_answer response = Some v -> outcome = Ok v)
  /\ (status_code response = 200 -> phrase_answer response = None ->
      exists e, outcome = Raise e /\ is_shape_error e = true
                /\ forall status, e <> DocumentsTranslator.TranslationError status).
Proof.
  intros Hurl Hpost outcome. subst outcome.
  unfold DocumentsTranslator.translate_text. rewrite Hurl.
  cbv beta iota delta [bind lift str_add fresh_uuid post emit raise].
  rewrite Hpost. cbv beta iota delta [of_requests].
  repeat split.
  - intros Hne. apply Z.eqb_neq in Hne. now rewrite Hne.
  - intros Heq v Hv. rewrite Heq, Z.eqb_refl. cbn [fst].
    now apply first_translation_answer.
  - intros Heq Hnone. rewrite Heq, Z.eqb_refl. cbn [fst].
    destruct (first_translation_no_answer response Hnone) as (e & He & Hshape).
    exists e. repeat split; auto.
    intros status. now apply shape_error_not_translation_error.
Qed.

(** ** The clients and the extractor *)

Lemma reraise_outcome (A : Type) (body : M A) (catches : exn -> bool)
    (msg : str) (s : State) :
  fst (try_except body catches (fun e => logger_error msg e ;; raise e) s)
  = fst (body s).
Proof.
  unfold try_except. destruct (body s) as [[a|e] s']; [reflexivity|].
  destruct (catches e); reflexivity.
Qed.

Lemma phrase_translate_text_witness :
  fst (DocumentsTranslator.translate_text
         (provider_world (answer 200 (Some bonjour)))
         (DocumentsTranslator.init (provider_world (answer 200 (Some bonjour))))
         (lit "Hello") (lit "en") (lit "fr") initial)
  = Ok (PyStr (lit "Bonjour"))
  /\ fst (DocumentsTranslator.translate_text
            (provider_world (answer 429 None))
            (DocumentsTranslator.init (provider_world (answer 429 None)))
            (lit "Hello") (lit "en") (lit "fr") initial)
     = Raise (DocumentsTranslator.TranslationError 429).
Proof.
  split.
  - exact (proj1 (proj2
             (phrase_translate_text
                (provider_world (answer 200 (Some bonjour)))
                (DocumentsTranslator.init
                   (provider_world (answer 200 (Some bonjour))))
                (lit "Hello") (lit "en") (lit "fr") initial
                (lit "https://provider.example") (answer 200 (Some bonjour))
                eq_refl eq_refl))
             eq_refl (PyStr (lit "Bonjour")) eq_refl).
  - apply (proj1
             (phrase_translate_text
                (provider_world (answer 429 None))
                (DocumentsTranslator.init (provider_world (answer 429 None)))
                (lit "Hello") (lit "en") (lit "fr") initial
                (lit "https://provider.example") (answer 429 None)
                eq_refl eq_refl)).
    simpl. discriminate.
Defined.

(** C1 as stated fails on a 200 response whose body is the empty array
    [[]]: the first subscript raises [IndexError], which is not the
    translation error. *)
Lemma phrase_translate_text_empty_array :
  status_code (answer 200 (Some (PyList []))) = 200
  /\ phrase_answer (answer 200 (Some (PyList []))) = None
  /\ fst (DocumentsTranslator.translate_text
            (provider_world (answer 200 (Some (PyList []))))
            (DocumentsTranslator.init
               (provider_world (answer 200 (Some (PyList [])))))
            (lit "Hello") (lit "en") (lit "fr") initial)
     = Raise IndexError
  /\ forall status, IndexError <> DocumentsTranslator.TranslationError status.
Proof.
  repeat split. intros status. discriminate.
Qed.

(** C2, as the code has it.  When the provider answers the request of
    [translate_text] with a response: a status from 400 to 599 raises the
    [HTTPError] that holds the response, from which the status can be
    logged; any other status with a body of the expected shape returns
    exactly the content of the first completion choice; any other status
    with a body of another shape raises what the subscripts or the JSON
    decoder raise, which holds no HTTP status. *)
Theorem completion_translate_text (env : Env) (self : ArticlesTranslator.t)
    (text target_language : str) (s : State) (response : Response) :
  requests_post env (ArticlesTranslator.request self text target_language)
  = inr response ->
  let outcome :=
    fst (ArticlesTranslator.translate_text env self text target_language s) in
  (error_status response ->
   outcome = Raise (RequestException (HTTPError response))
   /\ exn_status (RequestException (HTTPError response))
      = Some (status_code response))
  /\ (~ error_status response ->
      forall v, completion_answer response = Some v -> outcome = Ok v)
  /\ (~ error_status response -> completion_answer response = None ->
      exists e, outcome = Raise e /\ is_shape_error e = true
                /\ exn_status e = None).
Proof.
  intros Hpost outcome. subst outcome.
  unfold ArticlesTranslator.translate_text. rewrite reraise_outcome.
  cbv beta iota delta [bind lift post emit]. rewrite Hpost.
  cbv beta iota delta [of_requests].
  repeat split.
  - now rewrite raise_for_status_error.
  - intros Hok v Hv. rewrite raise_for_status_pass by assumption.
    cbn [fst]. now apply first_choice_answer.
  - intros Hok Hnone. rewrite raise_for_status_pass by assumption.
    cbn [fst].
    destruct (first_choice_no_answer response Hnone) as (e & He & Hshape).
    exists e. repeat split; auto using shape_error_status.
Qed.

Lemma completion_translate_text_witness :
  fst (ArticlesTranslator.translate_text
         (provider_world (answer 429 None))
         (ArticlesTranslator.init (provider_world (answer 429 None)))
         (lit "Hello") (lit "english") initial)
  = Raise (RequestException (HTTPError (answer 429 None)))
  /\ exn_status (RequestException (HTTPError (answer 429 None))) = Some 429
  /\ fst (ArticlesTranslator.translate_text
            (provider_world (answer 200 (Some bonjour_completion)))
            (ArticlesTranslator.init
               (provider_world (answer 200 (Some bonjour_completion))))
            (lit "Hello") (lit "english") initial)
     = Ok (PyStr (lit "Bonjour")).
Proof.
  assert (Herr : error_status (answer 429 None)) by (unfold error_status; simpl; lia).
  assert (Hok : ~ error_status (answer 200 (Some bonjour_completion)))
    by (unfold error_status; simpl; lia).
  split; [|split].
  - exact (proj1 (proj1
             (completion_translate_text
                (provider_world (answer 429 None))
                (ArticlesTranslator.init (provider_world (answer 429 None)))
                (lit "Hello") (lit "english") initial (answer 429 None)
                eq_refl) Herr)).
  - reflexivity.
  - exact (proj1 (proj2
             (completion_translate_text
                (provider_world (answer 200 (Some bonjour_completion)))
                (ArticlesTranslator.init
                   (provider_world (answer 200 (Some bonjour_completion))))
                (lit "Hello") (lit "english") initial
                (answer 200 (Some bonjour_completion)) eq_refl))
             Hok (PyStr (lit "Bonjour")) eq_refl).
Defined.

(** C2 as stated fails twice.  On a 200 response whose body is the empty
    object the subscript raises [KeyError], which holds no HTTP status.  On
    a response that is not 2xx but below 400 (here 300) whose body has the
    expected shape, nothing is raised and the content is returned. *)
Lemma completion_translate_text_unchecked :
  completion_answer (answer 200 (Some (PyDict []))) = None
  /\ fst (ArticlesTranslator.translate_text
            (provider_world (answer 200 (Some (PyDict []))))
            (ArticlesTranslator.init
               (provider_world (answer 200 (Some (PyDict [])))))
            (lit "Hello") (lit "english") initial)
     = Raise (KeyError (KStr (lit "choices")))
  /\ exn_status (KeyError (KStr (lit "choices"))) = None
  /\ ~ success_status (answer 300 (Some bonjour_completion))
  /\ fst (ArticlesTranslator.translate_text
            (provider_world (answer 300 (Some bonjour_completion)))
            (ArticlesTranslator.init
               (provider_world (answer 300 (Some bonjour_completion))))
            (lit "Hello") (lit "english") initial)
     = Ok (PyStr (lit "Bonjour")).
Proof.
  repeat split. unfold success_status. simpl. lia.
Qed.




Lemma posts_app (a b : list event) : posts (a ++ b) = posts a ++ posts b.
Proof. apply flat_map_app. Qed.

Lemma payload_is_completion_body (text target_language : str) :
  ArticlesTranslator.payload text target_language
  = completion_body text target_language.
Proof. reflexivity. Qed.

Lemma translate_text_posts (env : Env) (self : ArticlesTranslator.t)
    (text target_language : str) (s : State) :
  posts (trace (snd (ArticlesTranslator.translate_text env self text
                       target_language s)))
  = posts (trace s) ++ [ArticlesTranslator.request self text target_language].
Proof.
  unfold ArticlesTranslator.translate_text, try_except.
  cbv beta iota delta [bind lift post emit logger_error raise log].
  destruct (requests_post env _) as [e|response]; cbv beta iota delta [of_requests].
  - cbn [is_RequestException snd trace]. rewrite !posts_app. cbn [posts flat_map app].
    now rewrite app_nil_r.
  - destruct (raise_for_status response) as [[]|e].
    + destruct (ArticlesTranslator.first_choice response) as [v|e].
      * cbn [snd trace]. now rewrite posts_app.
      * destruct (is_RequestException e); cbn [snd trace]; rewrite !posts_app;
          cbn [posts flat_map app]; now rewrite ?app_nil_r.
    + destruct (is_RequestException e); cbn [snd trace]; rewrite !posts_app;
        cbn [posts flat_map app]; now rewrite ?app_nil_r.
Qed.

(** C8.  For every text and target-language label, whatever the provider
    answers, [translate_text] sends exactly one request; its body is the one
    of the specification: the fixed system instruction, the user instruction
    that embeds the text and the label, and the parameters temperature 0.9,
    top_p 0.95 and max_tokens 900, which depend on no argument. *)
Theorem completion_request (env : Env) (self : ArticlesTranslator.t)
    (text target_language : str) (s : State) :
  let req := ArticlesTranslator.request self text target_language in
  posts (trace (snd (ArticlesTranslator.translate_text env self text
                       target_language s)))
  = posts (trace s) ++ [req]
  /\ post_json req = completion_body text target_language
  /\ getitem (post_json req) (KStr (lit "temperature")) = Ok (PyFloat (9 # 10))
  /\ getitem (post_json req) (KStr (lit "top_p")) = Ok (PyFloat (95 # 100))
  /\ getitem (post_json req) (KStr (lit "max_tokens")) = Ok (PyInt 900).
Proof.
  intros req. split; [apply translate_text_posts|].
  repeat split.
Qed.

(** ** The pages *)

Lemma downloads_app (a b : list event) :
  downloads (a ++ b) = downloads a ++ downloads b.
Proof. apply flat_map_app. Qed.

Lemma downloads_log (s : State) (e : event) :
  (forall d, e <> Widget (DownloadButton d)) ->
  downloads (trace (log s e)) = downloads (trace s).
Proof.
  intros He. unfold log. cbn [trace]. rewrite downloads_app.
  destruct e as [| | |w]; try (cbn; apply app_nil_r).
  destruct w as [| |d| | | | | | | |]; cbn; try apply app_nil_r.
  now destruct (He d).
Qed.

Ltac no_download := intros ?; discriminate.

Lemma extract_text_downloads (env : Env) (self : ArticlesTranslator.t)
    (url : str) (s : State) :
  downloads (trace (snd (ArticlesTranslator.extract_text env self url s)))
  = downloads (trace s).
Proof.
  unfold ArticlesTranslator.extract_text, try_except.
  cbv beta iota delta [bind lift get emit logger_error raise ret].
  destruct (requests_get env url) as [e|response]; cbv beta iota delta [of_requests].
  - cbn [is_RequestException snd]. rewrite !downloads_log by no_download. reflexivity.
  - destruct (raise_for_status response) as [[]|e].
    + destruct (BeautifulSoup env (response_text response)) as [page|e].
      * cbn [snd]. now rewrite downloads_log by no_download.
      * destruct (is_RequestException e); cbn [snd];
          rewrite !downloads_log by no_download; reflexivity.
    + destruct (is_RequestException e); cbn [snd];
        rewrite !downloads_log by no_download; reflexivity.
Qed.

Lemma article_translate_text_downloads (env : Env) (self : ArticlesTranslator.t)
    (text target_language : str) (s : State) :
  downloads (trace (snd (ArticlesTranslator.translate_text env self text
                           target_language s)))
  = downloads (trace s).
Proof.
  unfold ArticlesTranslator.translate_text, try_except.
  cbv beta iota delta [bind lift post emit logger_error raise].
  destruct (requests_post env _) as [e|response]; cbv beta iota delta [of_requests].
  - cbn [is_RequestException snd]. rewrite !downloads_log by no_download. reflexivity.
  - destruct (raise_for_status response) as [[]|e].
    + destruct (ArticlesTranslator.first_choice response) as [v|e].
      * cbn [snd]. now rewrite downloads_log by no_download.
      * destruct (is_RequestException e); cbn [snd];
          rewrite !downloads_log by no_download; reflexivity.
    + destruct (is_RequestException e); cbn [snd];
        rewrite !downloads_log by no_download; reflexivity.
Qed.

Lemma document_translate_text_downloads (env : Env) (self : DocumentsTranslator.t)
    (text source_language target_language : str) (s : State) :
  downloads (trace (snd (DocumentsTranslator.translate_text env self text
                           source_language target_language s)))
  = downloads (trace s).
Proof.
  unfold DocumentsTranslator.translate_text.
  cbv beta iota delta [bind lift fresh_uuid post emit raise].
  destruct (str_add _ _) as [constructed_url|e]; [|reflexivity].
  destruct (requests_post env _) as [e|response]; cbv beta iota delta [of_requests].
  - cbn [snd]. unfold log. cbn [trace]. rewrite downloads_app. cbn. apply app_nil_r.
  - destruct (status_code response =? 200); cbn [snd]; unfold log; cbn [trace];
      rewrite downloads_app; cbn; apply app_nil_r.
Qed.

Lemma article_failure_page (env : Env) (url : str) (target_language : Language)
    (s : State) (e : exn) (s' : State) :
  article_failure env url target_language s e s' ->
  article_translator_action env url target_language true s
  = (Ok tt, log s' (failed e))
  /\ downloads (trace (log s' (failed e))) = downloads (trace s).
Proof.
  intros Hfail.
  rewrite downloads_log by (unfold failed; no_download).
  unfold article_translator_action, article_pipeline, try_except.
  cbv beta iota delta [bind lift st_markdown st_error st_download_button emit].
  destruct Hfail as [e s1 He|text s1 e s2 He Ht|text s1 translation s2 e He Ht Hb].
  - rewrite He. cbn [is_Exception]. split; [reflexivity|].
    rewrite <- (extract_text_downloads env (ArticlesTranslator.init env) url s).
    now rewrite He.
  - rewrite He, Ht. cbn [is_Exception]. split; [reflexivity|].
    rewrite <- (extract_text_downloads env (ArticlesTranslator.init env) url s), He.
    cbn [snd].
    rewrite <- (article_translate_text_downloads env (ArticlesTranslator.init env)
                  text (article_languages target_language) s1), Ht.
    reflexivity.
  - rewrite He, Ht, Hb. cbn [is_Exception]. split; [reflexivity|].
    rewrite !downloads_log by no_download.
    rewrite <- (extract_text_downloads env (ArticlesTranslator.init env) url s), He.
    cbn [snd].
    rewrite <- (article_translate_text_downloads env (ArticlesTranslator.init env)
                  text (article_languages target_language) s1), Ht.
    reflexivity.
Qed.

Lemma document_failure_page (env : Env) (file : bytes)
    (source_language target_language : Language)
    (s : State) (e : exn) (s' : State) :
  document_failure env file source_language target_language s e s' ->
  document_translator_action env (Some file) source_language target_language true s
  = (Ok tt, log s' (failed e))
  /\ downloads (trace (log s' (failed e))) = downloads (trace s).
Proof.
  intros Hfail.
  rewrite downloads_log by (unfold failed; no_download).
  unfold document_translator_action, document_pipeline, try_except.
  cbv beta iota delta [bind lift st_markdown st_text_area st_error
                         st_download_button emit].
  destruct Hfail as [e He|doc e s2 He Ht|doc translation s2 e He Ht Hb
                    |doc translation s2 translated_doc e He Ht Hb Hs].
  - rewrite He. cbn [is_Exception]. split; reflexivity.
  - rewrite He, Ht. cbn [is_Exception]. split; [reflexivity|].
    rewrite <- (document_translate_text_downloads env (DocumentsTranslator.init env)
                  (join [NEWLINE] (paragraph_texts doc))
                  (document_languages source_language)
                  (document_languages target_language) s), Ht.
    reflexivity.
  - rewrite He, Ht, Hb. cbn [is_Exception]. split; [reflexivity|].
    unfold translation_shown. rewrite !downloads_log by no_download.
    rewrite <- (document_translate_text_downloads env (DocumentsTranslator.init env)
                  (join [NEWLINE] (paragraph_texts doc))
                  (document_languages source_language)
                  (document_languages target_language) s), Ht.
    reflexivity.
  - rewrite He, Ht, Hb, Hs. cbn [is_Exception]. split; [reflexivity|].
    unfold translation_shown. rewrite !downloads_log by no_download.
    rewrite <- (document_translate_text_downloads env (DocumentsTranslator.init env)
                  (join [NEWLINE] (paragraph_texts doc))
                  (document_languages source_language)
                  (document_languages target_language) s), Ht.
    reflexivity.
Qed.

(** A run of a pipeline either fails in one of its stages or ends with the
    download button: the failures above are all the failures there are. *)
Lemma article_page_outcome (env : Env) (url : str) (target_language : Language)
    (s : State) :
  (exists e s', article_failure env url target_language s e s')
  \/ (exists d s',
        article_translator_action env url target_language true s
        = (Ok tt, log s' (Widget (DownloadButton d)))).
Proof.
  destruct (ArticlesTranslator.extract_text env (ArticlesTranslator.init env) url s)
    as [[text|e] s1] eqn:He.
  2:{ left. exists e, s1. now apply article_extraction_fails. }
  destruct (ArticlesTranslator.translate_text env (ArticlesTranslator.init env)
              text (article_languages target_language) s1)
    as [[translation|e] s2] eqn:Ht.
  2:{ left. exists e, s2. eapply article_translation_fails; eassumption. }
  destruct (encode translation) as [data|e] eqn:Hb.
  2:{ left. do 2 eexists.
      eapply article_building_fails; eassumption. }
  right.
  unfold article_translator_action, article_pipeline, try_except.
  cbv beta iota delta [bind lift st_markdown st_error st_download_button emit].
  rewrite He, Ht, Hb. do 2 eexists. reflexivity.
Qed.

Lemma document_page_outcome (env : Env) (file : bytes)
    (source_language target_language : Language) (s : State) :
  (exists e s', document_failure env file source_language target_language s e s')
  \/ (exists d s',
        document_translator_action env (Some file) source_language
          target_language true s
        = (Ok tt, log s' (Widget (DownloadButton d)))).
Proof.
  destruct (docx_Document env file) as [doc|e] eqn:He.
  2:{ left. exists e, s. now apply document_extraction_fails. }
  destruct (DocumentsTranslator.translate_text env (DocumentsTranslator.init env)
              (join [NEWLINE] (paragraph_texts doc))
              (document_languages source_language)
              (document_languages target_language) s)
    as [[translation|e] s2] eqn:Ht.
  2:{ left. exists e, s2. eapply document_translation_fails; eassumption. }
  destruct (document_builder translation) as [translated_doc|e] eqn:Hb.
  2:{ left. do 2 eexists.
      eapply document_building_fails; eassumption. }
  destruct (docx_save env translated_doc) as [buffer|e] eqn:Hs.
  2:{ left. do 2 eexists.
      eapply document_saving_fails; eassumption. }
  right.
  unfold document_translator_action, document_pipeline, try_except.
  cbv beta iota delta [bind lift st_markdown st_text_area st_error
                         st_download_button emit].
  rewrite He, Ht, Hb, Hs. do 2 eexists. reflexivity.
Qed.

(** C6.  In both pipelines, when a stage fails (extraction, translation or
    building) the page stops there: the only thing that follows the failing
    stage is the report of the failure, so the remaining stages do not run,
    and the run hands no artifact to the user (the trace has no download
    beyond those it had before the run). *)
Theorem failed_pipeline_delivers_nothing :
  (forall (env : Env) (url : str) (target_language : Language)
          (s : State) (e : exn) (s' : State),
      article_failure env url target_language s e s' ->
      article_translator_action env url target_language true s
      = (Ok tt, log s' (failed e))
      /\ downloads (trace (log s' (failed e))) = downloads (trace s))
  /\ (forall (env : Env) (file : bytes)
             (source_language target_language : Language)
             (s : State) (e : exn) (s' : State),
      document_failure env file source_language target_language s e s' ->
      document_translator_action env (Some file) source_language
        target_language true s
      = (Ok tt, log s' (failed e))
      /\ downloads (trace (log s' (failed e))) = downloads (trace s)).
Proof.
  split.
  - exact article_failure_page.
  - exact document_failure_page.
Qed.

(** The generative provider answers 429: the page reports the [HTTPError]
    of that response and offers nothing to download. *)
Lemma failed_pipeline_delivers_nothing_witness :
  article_translator_action (provider_world (answer 429 None))
    (lit "https://news.example/a") French true initial
  = (Ok tt,
     {| trace :=
          [ Get (lit "https://news.example/a");
            Post (ArticlesTranslator.request
                    (ArticlesTranslator.init (provider_world (answer 429 None)))
                    (lit "Hello") (article_languages French));
            LogError (lit "API request failed: ")
                     (RequestException (HTTPError (answer 429 None)));
            failed (RequestException (HTTPError (answer 429 None))) ];
        uuids := 0 |})
  /\ downloads
       (trace (snd (article_translator_action (provider_world (answer 429 None))
                      (lit "https://news.example/a") French true initial)))
     = [].
Proof.
  assert (H : article_failure (provider_world (answer 429 None))
                (lit "https://news.example/a") French initial
                (RequestException (HTTPError (answer 429 None)))
                {| trace :=
                     [ Get (lit "https://news.example/a");
                       Post (ArticlesTranslator.request
                               (ArticlesTranslator.init
                                  (provider_world (answer 429 None)))
                               (lit "Hello") (article_languages French));
                       LogError (lit "API request failed: ")
                         (RequestException (HTTPError (answer 429 None))) ];
                   uuids := 0 |}).
  { eapply article_translation_fails; reflexivity. }
  destruct (proj1 failed_pipeline_delivers_nothing _ _ _ _ _ _ H) as [Hrun Hnone].
  split; [exact Hrun|].
  rewrite Hrun. exact Hnone.
Defined.

(** The phrase provider answers "Bonjour" to a document that says "Hello":
    the page offers a document of one paragraph, "Bonjour". *)
Example document_page_bonjour :
  downloads
    (trace (snd (document_translator_action
                   (provider_world (answer 200 (Some bonjour)))
                   (Some []) English French true initial)))
  = [ {| download_data := lit "Bonjour"; download_mime := DOCX_MIME |} ]
  /\ document_builder (PyStr (lit "Bonjour"))
     = Ok {| paragraphs := [ {| text := lit "Bonjour" |} ] |}.
Proof. split; reflexivity. Qed.

(* ================================================================= *)
(** * Further properties *)

(** ** Rebuilding documents *)

Lemma split_concat (sep : Z) (a b : str) :
  split sep (a ++ sep :: b) = split sep a ++ split sep b.
Proof.
  induction a as [|c a IH]; simpl.
  - now rewrite Z.eqb_refl.
  - destruct (Z.eqb_spec c sep) as [->|Hne].
    + now rewrite IH.
    + rewrite IH. pose proof (split_not_nil sep a) as Hnil.
      destruct (split sep a) as [|seg segs]; [congruence | reflexivity].
Qed.

Lemma concat_split (sep : Z) (s : str) :
  List.concat (split sep s) = filter (fun c => negb (c =? sep)) s.
Proof.
  induction s as [|c s IH]; simpl; [reflexivity|].
  destruct (Z.eqb_spec c sep) as [->|Hne]; simpl; [exact IH|].
  pose proof (split_not_nil sep s) as Hnil.
  destruct (split sep s) as [|seg segs]; [congruence|].
  simpl in *. now rewrite IH.
Qed.

Lemma count_app (c : Z) (a b : str) : count c (a ++ b) = (count c a + count c b)%nat.
Proof. unfold count. now rewrite filter_app, length_app. Qed.

Lemma count_join (ps : list str) :
  ps <> [] ->
  S (count NEWLINE (join [NEWLINE] ps))
  = list_sum (map (fun p => S (count NEWLINE p)) ps).
Proof.
  induction ps as [|p ps IH]; intros Hnil; [congruence|].
  destruct ps as [|q ps].
  - simpl. now rewrite Nat.add_0_r.
  - rewrite join_cons by discriminate.
    specialize (IH ltac:(discriminate)).
    set (rest := q :: ps) in *.
    change (list_sum (map (fun p0 => S (count NEWLINE p0)) (p :: rest)))
      with (S (count NEWLINE p)
            + list_sum (map (fun p0 => S (count NEWLINE p0)) rest))%nat.
    rewrite <- IH, !count_app. change (count NEWLINE [NEWLINE]) with 1%nat. lia.
Qed.

Lemma join_Forall (P : Z -> Prop) (sep : Z) (ps : list str) :
  P sep -> Forall (Forall P) ps -> Forall P (join [sep] ps).
Proof.
  intros Hsep Hps. induction Hps as [|p ps Hp _ IH]; [constructor|].
  destruct ps as [|q ps]; [exact Hp|].
  rewrite join_cons by discriminate.
  apply Forall_app. split; [exact Hp|].
  cbn [app]. constructor; [exact Hsep | exact IH].
Qed.

Lemma read_back_app (a b : str) : read_back (a ++ b) = read_back a ++ read_back b.
Proof. apply map_app. Qed.

Lemma read_back_join (segs : list str) :
  read_back (join [NEWLINE] segs) = join [NEWLINE] (map read_back segs).
Proof.
  induction segs as [|p segs IH]; [reflexivity|].
  destruct segs as [|q segs]; [reflexivity|].
  rewrite join_cons by discriminate.
  change (join [NEWLINE] (map read_back (p :: q :: segs)))
    with (read_back p ++ [NEWLINE] ++ join [NEWLINE] (map read_back (q :: segs))).
  rewrite !read_back_app, IH. reflexivity.
Qed.

Lemma read_back_concat (segs : list str) :
  read_back (List.concat segs) = List.concat (map read_back segs).
Proof.
  induction segs as [|p segs IH]; [reflexivity|].
  cbn [List.concat map]. now rewrite read_back_app, IH.
Qed.

(** X1.  When the translated text is the original text unchanged, the
    rebuilt document has the paragraph texts of the original, provided the
    original has at least one paragraph and every paragraph text is made of
    characters that can be written and holds neither a newline nor a
    carriage return. *)
Theorem rebuilt_from_unchanged_text (doc : Document) :
  paragraphs doc <> [] ->
  Forall plain_paragraph (paragraphs doc) ->
  exists rebuilt,
    build_document (join [NEWLINE] (paragraph_texts doc)) = Ok rebuilt
    /\ paragraph_texts rebuilt = paragraph_texts doc.
Proof.
  intros Hnil Hplain.
  assert (Hne : paragraph_texts doc <> [])
    by (unfold paragraph_texts; destruct (paragraphs doc); [congruence | discriminate]).
  assert (Hfree : Forall (fun seg => ~ In NEWLINE seg) (paragraph_texts doc)).
  { unfold paragraph_texts. apply Forall_map.
    eapply Forall_impl; [|exact Hplain]. now intros p (H & _). }
  assert (Hok : Forall (Forall xml_compatible) (paragraph_texts doc)).
  { unfold paragraph_texts. apply Forall_map.
    eapply Forall_impl; [|exact Hplain]. now intros p (_ & _ & H). }
  eexists. split.
  - apply build_document_returns. split; [|reflexivity].
    apply join_Forall; [apply special_compatible; auto | exact Hok].
  - unfold paragraph_texts at 1. cbn [paragraphs]. rewrite map_map. cbn [text].
    rewrite split_join by assumption.
    rewrite <- (map_id (paragraph_texts doc)) at 2.
    apply map_ext_in. intros seg Hin. apply read_back_fixed.
    unfold paragraph_texts in Hin. apply in_map_iff in Hin.
    destruct Hin as (p & <- & Hp). rewrite Forall_forall in Hplain.
    now destruct (Hplain p Hp) as (_ & H & _).
Qed.

Lemma rebuilt_from_unchanged_text_witness :
  exists rebuilt,
    build_document (join [NEWLINE] (paragraph_texts three_paragraphs)) = Ok rebuilt
    /\ paragraph_texts rebuilt = [lit "Hello"; []; lit "World"].
Proof.
  apply (rebuilt_from_unchanged_text three_paragraphs).
  - discriminate.
  - repeat (apply Forall_cons || apply Forall_nil);
      (split; [|split; [|apply xml_compatible_check; reflexivity]]);
      vm_compute; intuition discriminate.
Defined.

(** X2.  Rebuilt from its own text, a document gets one paragraph per line
    of each original paragraph (a paragraph with k newlines becomes k + 1
    paragraphs), and a document without paragraphs gets one empty
    paragraph.  The builder returns that document whenever the paragraph
    texts are made of characters that can be written, as texts read from a
    file are. *)
Theorem rebuilt_paragraph_count (doc : Document) :
  (forall rebuilt,
      build_document (join [NEWLINE] (paragraph_texts doc)) = Ok rebuilt ->
      List.length (paragraphs rebuilt)
      = Nat.max 1 (list_sum (map lines_of (paragraphs doc))))
  /\ (Forall (fun p => Forall xml_compatible (text p)) (paragraphs doc) ->
      exists rebuilt,
        build_document (join [NEWLINE] (paragraph_texts doc)) = Ok rebuilt).
Proof.
  split.
  - intros rebuilt H. apply build_document_returns in H. destruct H as [_ ->].
    cbn [paragraphs]. rewrite length_map, length_split.
    destruct (paragraphs doc) as [|p ps] eqn:Hp.
    + unfold paragraph_texts. rewrite Hp. reflexivity.
    + rewrite count_join by (unfold paragraph_texts; rewrite Hp; discriminate).
      unfold paragraph_texts. rewrite Hp, map_map.
      change (fun x => S (count NEWLINE (text x))) with lines_of.
      set (total := list_sum (map lines_of (p :: ps))).
      assert (1 <= total)%nat by (subst total; unfold lines_of; simpl; lia).
      lia.
  - intros Hok. eexists. apply build_document_returns. split; [|reflexivity].
    apply join_Forall; [apply special_compatible; auto|].
    unfold paragraph_texts. apply Forall_map. exact Hok.
Qed.

Lemma rebuilt_paragraph_count_witness :
  exists rebuilt,
    build_document (join [NEWLINE] (paragraph_texts three_paragraphs)) = Ok rebuilt
    /\ List.length (paragraphs rebuilt) = 3%nat.
Proof.
  destruct (proj2 (rebuilt_paragraph_count three_paragraphs)) as [rebuilt H].
  - apply Forall_forall. intros p [<-|[<-|[<-|[]]]];
      apply xml_compatible_check; reflexivity.
  - exists rebuilt. split; [exact H|].
    exact (proj1 (rebuilt_paragraph_count three_paragraphs) rebuilt H).
Defined.

(** X3.  When the builder returns a document, its paragraph texts joined
    with newlines, as the extractor joins them, are the translation with
    every carriage return read as a newline; they are the translation itself
    when it has no carriage return. *)
Theorem rebuilt_lines_join (t : str) (rebuilt : Document) :
  build_document t = Ok rebuilt ->
  join [NEWLINE] (paragraph_texts rebuilt) = read_back t
  /\ (~ In 13 t -> join [NEWLINE] (paragraph_texts rebuilt) = t).
Proof.
  intros H. rewrite (build_document_texts t rebuilt H), <- read_back_join, join_split.
  split; [reflexivity | apply read_back_fixed].
Qed.

Lemma rebuilt_lines_join_witness :
  join [NEWLINE]
    (paragraph_texts {| paragraphs := [ {| text := [97] |}; {| text := [98; 10; 99] |} ] |})
  = [97; 10; 98; 10; 99].
Proof.
  exact (proj1 (rebuilt_lines_join [97; 10; 98; 13; 99] _ eq_refl)).
Defined.

(** X4.  A newline between two texts separates their documents: when the
    builder returns a document for each of [a] and [b], it returns one for
    [a], newline, [b], whose paragraphs are those of [a] followed by those
    of [b]; a trailing newline thus adds an empty last paragraph. *)
Theorem build_document_concat (a b : str) (da db : Document) :
  build_document a = Ok da ->
  build_document b = Ok db ->
  (exists d,
      build_document (a ++ NEWLINE :: b) = Ok d
      /\ paragraph_texts d = paragraph_texts da ++ paragraph_texts db)
  /\ (exists d,
        build_document (a ++ [NEWLINE]) = Ok d
        /\ paragraph_texts d = paragraph_texts da ++ [[]]).
Proof.
  intros Ha Hb.
  pose proof (build_document_texts a da Ha) as Hta.
  pose proof (build_document_texts b db Hb) as Htb.
  apply build_document_returns in Ha. destruct Ha as [Hoka _].
  apply build_document_returns in Hb. destruct Hb as [Hokb _].
  assert (Hnl : xml_compatible NEWLINE) by (apply special_compatible; auto).
  split; eexists; (split; [apply build_document_returns; split; [|reflexivity]|]).
  - apply Forall_app. split; [exact Hoka | constructor; assumption].
  - unfold paragraph_texts at 1. cbn [paragraphs]. rewrite map_map. cbn [text].
    now rewrite split_concat, map_app, Hta, Htb.
  - apply Forall_app. split; [exact Hoka | constructor; [assumption | constructor]].
  - unfold paragraph_texts at 1. cbn [paragraphs]. rewrite map_map. cbn [text].
    now rewrite split_concat, map_app, Hta.
Qed.

Lemma build_document_concat_witness :
  exists d,
    build_document (lit "uno" ++ NEWLINE :: lit "dos") = Ok d
    /\ paragraph_texts d = [lit "uno"; lit "dos"].
Proof.
  exact (proj1 (build_document_concat (lit "uno") (lit "dos") _ _ eq_refl eq_refl)).
Defined.

(** X5.  When the builder returns a document, its paragraph texts, one
    after the other, are the translation without its newline characters and
    with every carriage return read as a newline; no other character is
    dropped or changed. *)
Theorem build_document_drops_newlines_only (t : str) (rebuilt : Document) :
  build_document t = Ok rebuilt ->
  List.concat (paragraph_texts rebuilt)
  = read_back (filter (fun c => negb (c =? NEWLINE)) t).
Proof.
  intros H.
  now rewrite (build_document_texts t rebuilt H), <- read_back_concat, concat_split.
Qed.

Lemma build_document_drops_newlines_only_witness :
  List.concat
    (paragraph_texts {| paragraphs := [ {| text := [97] |}; {| text := [98; 10; 99] |} ] |})
  = [97; 98; 10; 99].
Proof.
  exact (build_document_drops_newlines_only [97; 10; 98; 13; 99] _ eq_refl).
Defined.

(** ** Clients, extractor and pages *)

Lemma posts_log (s : State) (e : event) :
  posts (trace (log s e))
  = posts (trace s) ++ match e with Post r => [r] | _ => [] end.
Proof. unfold log. cbn [trace]. rewrite posts_app. cbn. now rewrite app_nil_r. Qed.

Lemma downloads_log_button (s : State) (d : Download) :
  downloads (trace (log s (Widget (DownloadButton d))))
  = downloads (trace s) ++ [d].
Proof. unfold log. cbn [trace]. now rewrite downloads_app. Qed.

(** The article page as a function of the outcomes of its stages. *)
Lemma article_action_run (env : Env) (url : str) (target_language : Language)
    (s : State) :
  article_translator_action env url target_language true s
  = match ArticlesTranslator.extract_text env (ArticlesTranslator.init env) url s with
    | (Raise e, s1) => (Ok tt, log s1 (failed e))
    | (Ok text, s1) =>
        match ArticlesTranslator.translate_text env (ArticlesTranslator.init env)
                text (article_languages target_language) s1 with
        | (Raise e, s2) => (Ok tt, log s2 (failed e))
        | (Ok translation, s2) =>
            let shown :=
              log (log s2 (Widget (Markdown (PyStr (lit "### Translation Result")))))
                  (Widget (Markdown translation)) in
            match encode translation with
            | Raise e => (Ok tt, log shown (failed e))
            | Ok data =>
                (Ok tt,
                 log shown
                   (Widget (DownloadButton {| download_data := data;
                                              download_mime := MARKDOWN_MIME |})))
            end
        end
    end.
Proof.
  unfold article_translator_action, article_pipeline, try_except.
  cbv beta iota delta [bind lift st_markdown st_error st_download_button emit].
  destruct (ArticlesTranslator.extract_text _ _ _ _) as [[text|e] s1]; [|reflexivity].
  destruct (ArticlesTranslator.translate_text _ _ _ _ _) as [[translation|e] s2];
    [|reflexivity].
  destruct (encode translation) as [data|e]; reflexivity.
Qed.

(** The document page as a function of the outcomes of its stages. *)
Lemma document_action_run (env : Env) (file : bytes)
    (source_language target_language : Language) (s : State) :
  document_translator_action env (Some file) source_language target_language true s
  = match docx_Document env file with
    | Raise e => (Ok tt, log s (failed e))
    | Ok doc =>
        let original_text := join [NEWLINE] (paragraph_texts doc) in
        match DocumentsTranslator.translate_text env (DocumentsTranslator.init env)
                original_text (document_languages source_language)
                (document_languages target_language) s with
        | (Raise e, s2) => (Ok tt, log s2 (failed e))
        | (Ok translation, s2) =>
            let shown := translation_shown original_text translation s2 in
            match document_builder translation with
            | Raise e => (Ok tt, log shown (failed e))
            | Ok translated_doc =>
                match docx_save env translated_doc with
                | Raise e => (Ok tt, log shown (failed e))
                | Ok buffer =>
                    (Ok tt,
                     log shown
                       (Widget (DownloadButton {| download_data := buffer;
                                                  download_mime := DOCX_MIME |})))
                end
            end
        end
    end.
Proof.
  unfold document_translator_action, document_pipeline, try_except.
  cbv beta iota delta [bind lift st_markdown st_text_area st_error
                         st_download_button emit].
  destruct (docx_Document env file) as [doc|e]; [|reflexivity].
  destruct (DocumentsTranslator.translate_text _ _ _ _ _ _) as [[translation|e] s2];
    [|reflexivity].
  destruct (document_builder translation) as [translated_doc|e]; [|reflexivity].
  destruct (docx_save env translated_doc) as [buffer|e]; reflexivity.
Qed.

Lemma phrase_translate_text_run (env : Env) (self : DocumentsTranslator.t)
    (text source_language target_language : str) (s : State) (url : str) :
  DocumentsTranslator.endpoint self = Some url ->
  DocumentsTranslator.translate_text env self text source_language
    target_language s
  = (match requests_post env
             (DocumentsTranslator.request self (url ++ lit "/translate")
                (uuid4 env (uuids s)) text source_language target_language) with
     | inl e => Raise (RequestException e)
     | inr response =>
         if status_code response =? 200
         then DocumentsTranslator.first_translation response
         else Raise (DocumentsTranslator.TranslationError (status_code response))
     end,
     {| trace :=
          trace s
          ++ [Post (DocumentsTranslator.request self (url ++ lit "/translate")
                      (uuid4 env (uuids s)) text source_language target_language)];
        uuids := S (uuids s) |}).
Proof.
  intros Hurl. unfold DocumentsTranslator.translate_text. rewrite Hurl.
  cbv beta iota delta [bind lift str_add fresh_uuid post emit raise log].
  cbn [trace uuids].
  destruct (requests_post env _) as [e|response]; cbv beta iota delta [of_requests].
  - reflexivity.
  - destruct (status_code response =? 200); reflexivity.
Qed.




(** X7.  With an endpoint configured, a call of the phrase client sends
    exactly one request and logs nothing else, whatever the answer; it draws
    exactly one trace identifier; the request goes to the endpoint followed
    by [/translate], with the source code as [from], the target code alone
    in the list [to], and the body [[{"text": text}]]. *)
Theorem phrase_request (env : Env) (self : DocumentsTranslator.t)
    (text source_language target_language : str) (s : State) (url : str) :
  DocumentsTranslator.endpoint self = Some url ->
  let req :=
    DocumentsTranslator.request self (url ++ lit "/translate")
      (uuid4 env (uuids s)) text source_language target_language in
  let s' :=
    snd (DocumentsTranslator.translate_text env self text source_language
           target_language s) in
  trace s' = trace s ++ [Post req]
  /\ uuids s' = S (uuids s)
  /\ post_url req = Some (url ++ lit "/translate")
  /\ post_json req = PyList [PyDict [(lit "text", PyStr text)]]
  /\ dict_get (post_params req) (lit "from") = Some (PyStr source_language)
  /\ dict_get (post_params req) (lit "to") = Some (PyList [PyStr target_language]).
Proof.
  intros Hurl req s'. subst s'.
  rewrite (phrase_translate_text_run env self text source_language
             target_language s url Hurl).
  repeat split.
Qed.

Lemma phrase_request_witness :
  uuids (snd (DocumentsTranslator.translate_text
                (provider_world (answer 200 (Some bonjour)))
                (DocumentsTranslator.init
                   (provider_world (answer 200 (Some bonjour))))
                (lit "Hello") (lit "en") (lit "fr") initial))
  = 1%nat.
Proof.
  exact (proj1 (proj2
           (phrase_request (provider_world (answer 200 (Some bonjour)))
              (DocumentsTranslator.init
                 (provider_world (answer 200 (Some bonjour))))
              (lit "Hello") (lit "en") (lit "fr") initial
              (lit "https://provider.example") eq_refl))).
Defined.

(** X8.  When [requests.post] raises in the phrase client (there is no
    [try] around it), the caller gets that very exception; nothing is logged
    and nothing is retried: the trace gains the one request. *)
Theorem phrase_network_failure (env : Env) (self : DocumentsTranslator.t)
    (text source_language target_language : str) (s : State) (url : str)
    (e : requests_exception) :
  DocumentsTranslator.endpoint self = Some url ->
  requests_post env
    (DocumentsTranslator.request self (url ++ lit "/translate")
       (uuid4 env (uuids s)) text source_language target_language)
  = inl e ->
  DocumentsTranslator.translate_text env self text source_language
    target_language s
  = (Raise (RequestException e),
     {| trace :=
          trace s
          ++ [Post (DocumentsTranslator.request self (url ++ lit "/translate")
                      (uuid4 env (uuids s)) text source_language target_language)];
        uuids := S (uuids s) |}).
Proof.
  intros Hurl Hpost.
  rewrite (phrase_translate_text_run env self text source_language
             target_language s url Hurl), Hpost.
  reflexivity.
Qed.

Lemma phrase_network_failure_witness :
  fst (DocumentsTranslator.translate_text offline_provider_world
         (DocumentsTranslator.init offline_provider_world)
         (lit "Hello") (lit "en") (lit "fr") initial)
  = Raise (RequestException unreachable).
Proof.
  exact (f_equal fst
           (phrase_network_failure offline_provider_world
              (DocumentsTranslator.init offline_provider_world)
              (lit "Hello") (lit "en") (lit "fr") initial
              (lit "https://provider.example") unreachable eq_refl eq_refl)).
Defined.

(** X9.  A call of the generative client sends exactly one request and
    logs "API request failed: " exactly once when what it raises is a
    requests exception; a success, or a [KeyError], [IndexError] or
    [TypeError] from the subscripts, logs nothing.  It draws no trace
    identifier. *)
Theorem completion_logs_request_failures (env : Env) (self : ArticlesTranslator.t)
    (text target_language : str) (s : State) :
  let run := ArticlesTranslator.translate_text env self text target_language s in
  trace (snd run)
  = trace s
    ++ Post (ArticlesTranslator.request self text target_language)
       :: match fst run with
          | Raise e =>
              if is_RequestException e
              then [LogError (lit "API request failed: ") e]
              else []
          | Ok _ => []
          end
  /\ uuids (snd run) = uuids s.
Proof.
  intros run. subst run.
  unfold ArticlesTranslator.translate_text, try_except.
  cbv beta iota delta [bind lift post emit logger_error raise log].
  cbn [trace uuids].
  destruct (requests_post env _) as [e|response]; cbv beta iota delta [of_requests].
  - cbn [is_RequestException fst snd trace uuids]. now rewrite <- app_assoc.
  - destruct (raise_for_status response) as [[]|e].
    + destruct (ArticlesTranslator.first_choice response) as [v|e].
      * cbn [fst snd trace uuids]. auto.
      * destruct (is_RequestException e) eqn:He; cbn [fst snd trace uuids];
          rewrite He; rewrite <- ?app_assoc; auto.
    + destruct (is_RequestException e) eqn:He; cbn [fst snd trace uuids];
        rewrite He; rewrite <- ?app_assoc; auto.
Qed.



(** X11.  [load_lottie] sends one GET and logs nothing.  A network failure
    is raised to the caller as it is; a response of any status other than
    200, an error status or another success status alike, gives [None]
    without an exception; a 200 response gives its parsed body, or the
    decoding error when the body is not JSON. *)
Theorem load_lottie_outcome (env : Env) (url : str) (s : State) :
  let run := load_lottie env url s in
  snd run = log s (Get url)
  /\ (forall e, requests_get env url = inl e ->
                fst run = Raise (RequestException e))
  /\ (forall response, requests_get env url = inr response ->
        status_code response <> 200 -> fst run = Ok PyNone)
  /\ (forall response, requests_get env url = inr response ->
        status_code response = 200 -> fst run = json response).
Proof.
  intros run. subst run. unfold load_lottie.
  cbv beta iota delta [bind lift get emit ret].
  destruct (requests_get env url) as [e|response]; cbv beta iota delta [of_requests].
  - repeat split; try discriminate. now intros e' [= <-].
  - split; [destruct (status_code response =? 200); reflexivity|].
    split; [discriminate|]. split.
    + intros r [= <-] Hne. apply Z.eqb_neq in Hne. now rewrite Hne.
    + intros r [= <-] Heq. now rewrite Heq.
Qed.

Lemma load_lottie_outcome_witness :
  fst (load_lottie (web_world (inr (answer 404 None)))
         (lit "https://lottie.example/a.json") initial)
  = Ok PyNone
  /\ fst (load_lottie (web_world (inr (answer 200 (Some bonjour))))
            (lit "https://lottie.example/a.json") initial)
     = Ok bonjour.
Proof.
  split.
  - apply (proj1 (proj2 (proj2
             (load_lottie_outcome (web_world (inr (answer 404 None)))
                (lit "https://lottie.example/a.json") initial)))
             (answer 404 None) eq_refl).
    simpl. discriminate.
  - exact (proj2 (proj2 (proj2
             (load_lottie_outcome (web_world (inr (answer 200 (Some bonjour))))
                (lit "https://lottie.example/a.json") initial)))
             (answer 200 (Some bonjour)) eq_refl eq_refl).
Defined.

Lemma encode_scalars (t : str) :
  Forall (fun c => is_scalar c = true) t ->
  exists data, encode (PyStr t) = Ok data /\ utf8_decode data = Some t.
Proof.
  intros Hs. unfold encode, utf8_encode.
  destruct (utf8_encode_from_scalars t 0%nat Hs) as [bs Hbs].
  rewrite Hbs. exists bs. split; [reflexivity|].
  exact (utf8_decode_encode_from t 0%nat bs Hbs).
Qed.

(** X12.  When the extraction succeeds and the translation is a string of
    Unicode scalar values, the article page shows the heading and the
    translation, then offers exactly one download, of type [text/markdown],
    whose bytes decode as UTF-8 to the translation. *)
Theorem article_page_delivers (env : Env) (url : str) (target_language : Language)
    (s : State) (text : str) (s1 : State) (t : str) (s2 : State) :
  ArticlesTranslator.extract_text env (ArticlesTranslator.init env) url s
  = (Ok text, s1) ->
  ArticlesTranslator.translate_text env (ArticlesTranslator.init env) text
    (article_languages target_language) s1
  = (Ok (PyStr t), s2) ->
  Forall (fun c => is_scalar c = true) t ->
  exists data,
    utf8_decode data = Some t
    /\ article_translator_action env url target_language true s
       = (Ok tt,
          log (log (log s2
            (Widget (Markdown (PyStr (lit "### Translation Result")))))
            (Widget (Markdown (PyStr t))))
            (Widget (DownloadButton {| download_data := data;
                                       download_mime := MARKDOWN_MIME |})))
    /\ downloads
         (trace (snd (article_translator_action env url target_language true s)))
       = downloads (trace s)
         ++ [ {| download_data := data; download_mime := MARKDOWN_MIME |} ].
Proof.
  intros He Ht Hs.
  destruct (encode_scalars t Hs) as (data & Hdata & Hdec).
  exists data. split; [exact Hdec|].
  rewrite article_action_run, He, Ht. cbv zeta. rewrite Hdata.
  split; [reflexivity|].
  cbn [snd]. rewrite downloads_log_button.
  rewrite !downloads_log by no_download.
  pose proof (extract_text_downloads env (ArticlesTranslator.init env) url s) as H1.
  pose proof (article_translate_text_downloads env (ArticlesTranslator.init env)
                text (article_languages target_language) s1) as H2.
  rewrite He in H1. rewrite Ht in H2. cbn [snd] in H1, H2.
  now rewrite H2, H1.
Qed.

Lemma article_page_delivers_witness :
  exists data,
    utf8_decode data = Some (lit "Bonjour")
    /\ downloads
         (trace (snd (article_translator_action (web_world (inr (answer 200 None)))
                        (lit "https://news.example/a") French true initial)))
       = [ {| download_data := data; download_mime := MARKDOWN_MIME |} ].
Proof.
  assert (Hs : Forall (fun c => is_scalar c = true) (lit "Bonjour"))
    by (repeat constructor).
  destruct (article_page_delivers (web_world (inr (answer 200 None)))
              (lit "https://news.example/a") French initial
              (lit "Hello") (log initial (Get (lit "https://news.example/a")))
              (lit "Bonjour")
              (log (log initial (Get (lit "https://news.example/a")))
                   (Post (ArticlesTranslator.request
                            (ArticlesTranslator.init
                               (web_world (inr (answer 200 None))))
                            (lit "Hello") (article_languages French))))
              eq_refl eq_refl Hs) as (data & Hdec & _ & Hd).
  exists data. split; [exact Hdec | exact Hd].
Defined.

(** X13.  When the document is read, the translation is a string, the
    builder returns the document of its lines and that document is saved,
    the [if] statement of the document page shows the original text and the
    translation, then offers exactly one download: the saved bytes of that
    document, with the Word MIME type. *)
Theorem document_page_delivers (env : Env) (file : bytes)
    (source_language target_language : Language) (s : State)
    (doc : Document) (t : str) (s2 : State)
    (translated_doc : Document) (buffer : bytes) :
  docx_Document env file = Ok doc ->
  DocumentsTranslator.translate_text env (DocumentsTranslator.init env)
    (join [NEWLINE] (paragraph_texts doc))
    (document_languages source_language) (document_languages target_language) s
  = (Ok (PyStr t), s2) ->
  build_document t = Ok translated_doc ->
  docx_save env translated_doc = Ok buffer ->
  document_translator_action env (Some file) source_language target_language true s
  = (Ok tt,
     log (translation_shown (join [NEWLINE] (paragraph_texts doc)) (PyStr t) s2)
         (Widget (DownloadButton {| download_data := buffer;
                                    download_mime := DOCX_MIME |})))
  /\ downloads
       (trace (snd (document_translator_action env (Some file) source_language
                      target_language true s)))
     = downloads (trace s)
       ++ [ {| download_data := buffer; download_mime := DOCX_MIME |} ].
Proof.
  intros Hd Ht Hbuild Hb.
  rewrite document_action_run, Hd. cbv zeta. rewrite Ht.
  cbn [document_builder]. rewrite Hbuild, Hb.
  split; [reflexivity|].
  cbn [snd]. rewrite downloads_log_button. unfold translation_shown.
  rewrite !downloads_log by no_download.
  pose proof (document_translate_text_downloads env (DocumentsTranslator.init env)
                (join [NEWLINE] (paragraph_texts doc))
                (document_languages source_language)
                (document_languages target_language) s) as H2.
  rewrite Ht in H2. cbn [snd] in H2. now rewrite H2.
Qed.

Lemma document_page_delivers_witness :
  downloads
    (trace (snd (document_translator_action
                   (provider_world (answer 200 (Some bonjour)))
                   (Some []) English French true initial)))
  = [ {| download_data := lit "Bonjour"; download_mime := DOCX_MIME |} ].
Proof.
  exact (proj2
           (document_page_delivers (provider_world (answer 200 (Some bonjour)))
              [] English French initial hello_document (lit "Bonjour")
              {| trace :=
                   [ Post (DocumentsTranslator.request
                             (DocumentsTranslator.init
                                (provider_world (answer 200 (Some bonjour))))
                             (lit "https://provider.example/translate")
                             (lit "0") (lit "Hello") (lit "en") (lit "fr")) ];
                 uuids := 1 |}
              {| paragraphs := [ {| text := lit "Bonjour" |} ] |}
              (lit "Bonjour") eq_refl eq_refl eq_refl eq_refl)).
Defined.

Lemma load_lottie_state (env : Env) (url : str) (s : State) :
  snd (load_lottie env url s) = log s (Get url).
Proof.
  unfold load_lottie, get. cbv beta iota delta [bind lift emit ret].
  destruct (of_requests (requests_get env url)) as [r|e]; [|reflexivity].
  now destruct (negb (status_code r =? 200)).
Qed.

Lemma article_header_run (env : Env) (s : State) :
  article_translator_header env s
  = let s0 := log s (Widget (Title (128240 :: lit " Article Translator"))) in
    let s1 := log s0 (Get ARTICLE_ANIMATION) in
    match fst (load_lottie env ARTICLE_ANIMATION s0) with
    | Raise e => (Raise e, s1)
    | Ok animation =>
        match lottie_component env animation 200 with
        | Raise e => (Raise e, s1)
        | Ok _ =>
            (Ok tt,
             log (log (log (log (log s1
               (Widget (Lottie animation 200)))
               (Widget (Markdown (PyStr ARTICLE_HOW))))
               (Widget (TextInput (128279 :: lit " Article URL"))))
               (Widget (Selectbox (127757 :: lit " Target Language")
                          article_language_names 0)))
               (Widget (Button (128260 :: lit " Translate Article"))))
        end
    end.
Proof.
  cbv zeta. unfold article_translator_header.
  cbv beta iota delta [bind st_title st_lottie st_markdown st_text_input
                       st_selectbox st_button emit lift].
  pose proof (load_lottie_state env ARTICLE_ANIMATION
                (log s (Widget (Title (128240 :: lit " Article Translator")))))
    as Hs.
  destruct (load_lottie env ARTICLE_ANIMATION _) as [[animation|e] s1];
    cbn [fst snd] in *; subst s1; [|reflexivity].
  now destruct (lottie_component env animation 200) as [[]|e].
Qed.

Lemma document_header_run (env : Env) (s : State) :
  document_translator_header env s
  = let s0 := log s (Widget (Title (128196 :: lit " Word Document Translator"))) in
    let s1 := log s0 (Get DOCUMENT_ANIMATION) in
    match fst (load_lottie env DOCUMENT_ANIMATION s0) with
    | Raise e => (Raise e, s1)
    | Ok animation =>
        match lottie_component env animation 200 with
        | Raise e => (Raise e, s1)
        | Ok _ =>
            (Ok tt,
             log (log (log (log (log (log (log s1
               (Widget (Lottie animation 200)))
               (Widget (Markdown (PyStr DOCUMENT_HOW))))
               (Widget (FileUploader (128206 :: lit " Upload Word file")
                          [lit "docx"])))
               (Widget (Columns 2)))
               (Widget (Selectbox (128292 :: lit " Source language")
                          document_language_names 0)))
               (Widget (Selectbox (128292 :: lit " Target language")
                          document_language_names 4)))
               (Widget (Button (128260 :: lit " Translate"))))
        end
    end.
Proof.
  cbv zeta. unfold document_translator_header.
  cbv beta iota delta [bind st_title st_lottie st_markdown st_file_uploader
                       st_columns st_selectbox st_button emit lift].
  pose proof (load_lottie_state env DOCUMENT_ANIMATION
                (log s (Widget (Title (128196 :: lit " Word Document Translator")))))
    as Hs.
  destruct (load_lottie env DOCUMENT_ANIMATION _) as [[animation|e] s1];
    cbn [fst snd] in *; subst s1; [|reflexivity].
  now destruct (lottie_component env animation 200) as [[]|e].
Qed.

Lemma header_downloads (env : Env) (s s1 : State) :
  (article_translator_header env s = (Ok tt, s1)
   \/ document_translator_header env s = (Ok tt, s1)) ->
  downloads (trace s1) = downloads (trace s).
Proof.
  intros [H|H].
  - rewrite article_header_run in H. cbv zeta in H.
    destruct (fst (load_lottie env ARTICLE_ANIMATION _)) as [animation|e];
      [|discriminate].
    destruct (lottie_component env animation 200) as [[]|e]; [|discriminate].
    injection H as <-. now rewrite !downloads_log by no_download.
  - rewrite document_header_run in H. cbv zeta in H.
    destruct (fst (load_lottie env DOCUMENT_ANIMATION _)) as [animation|e];
      [|discriminate].
    destruct (lottie_component env animation 200) as [[]|e]; [|discriminate].
    injection H as <-. now rewrite !downloads_log by no_download.
Qed.

Lemma actions_return (env : Env) (s : State) :
  (forall (url : str) (target_language : Language) (clicked : bool),
      fst (article_translator_action env url target_language clicked s) = Ok tt
      /\ at_most_one_more (downloads (trace s))
           (downloads
              (trace (snd (article_translator_action env url target_language
                             clicked s)))))
  /\ (forall (file : option bytes) (source_language target_language : Language)
             (clicked : bool),
      fst (document_translator_action env file source_language target_language
             clicked s) = Ok tt
      /\ at_most_one_more (downloads (trace s))
           (downloads
              (trace (snd (document_translator_action env file source_language
                             target_language clicked s))))).
Proof.
  split.
  - intros url target_language [|]; [|split; [reflexivity | now left]].
    rewrite article_action_run.
    pose proof (extract_text_downloads env (ArticlesTranslator.init env) url s) as He.
    destruct (ArticlesTranslator.extract_text _ _ _ _) as [[text|e] s1];
      cbn [snd] in He.
    2:{ split; [reflexivity|]. left. cbn [snd].
        rewrite downloads_log by (unfold failed; no_download). exact He. }
    pose proof (article_translate_text_downloads env (ArticlesTranslator.init env)
                  text (article_languages target_language) s1) as Ht.
    destruct (ArticlesTranslator.translate_text _ _ _ _ _) as [[translation|e] s2];
      cbn [snd] in Ht.
    2:{ split; [reflexivity|]. left. cbn [snd].
        rewrite downloads_log by (unfold failed; no_download). congruence. }
    cbv zeta. destruct (encode translation) as [data|e].
    + split; [reflexivity|]. right. eexists. cbn [snd].
      rewrite downloads_log_button, !downloads_log by no_download.
      rewrite Ht, He. reflexivity.
    + split; [reflexivity|]. left. cbn [snd].
      rewrite !downloads_log by (unfold failed; no_download). congruence.
  - intros [file|] source_language target_language [|];
      try (split; [reflexivity | now left]).
    2:{ split; [reflexivity|]. left.
        unfold document_translator_action, st_error, emit. cbn [snd].
        now rewrite downloads_log by no_download. }
    rewrite document_action_run.
    destruct (docx_Document env file) as [doc|e].
    2:{ split; [reflexivity|]. left. cbn [snd].
        now rewrite downloads_log by (unfold failed; no_download). }
    cbv zeta.
    pose proof (document_translate_text_downloads env (DocumentsTranslator.init env)
                  (join [NEWLINE] (paragraph_texts doc))
                  (document_languages source_language)
                  (document_languages target_language) s) as Ht.
    destruct (DocumentsTranslator.translate_text _ _ _ _ _ _)
      as [[translation|e] s2]; cbn [snd] in Ht.
    2:{ split; [reflexivity|]. left. cbn [snd].
        rewrite downloads_log by (unfold failed; no_download). exact Ht. }
    assert (Hshown : downloads (trace (translation_shown
                        (join [NEWLINE] (paragraph_texts doc)) translation s2))
                     = downloads (trace s)).
    { unfold translation_shown. rewrite !downloads_log by no_download. exact Ht. }
    destruct (document_builder translation) as [translated_doc|e].
    2:{ split; [reflexivity|]. left. cbn [snd].
        rewrite downloads_log by (unfold failed; no_download). exact Hshown. }
    destruct (docx_save env translated_doc) as [buffer|e].
    + split; [reflexivity|]. right. eexists. cbn [snd].
      rewrite downloads_log_button, Hshown. reflexivity.
    + split; [reflexivity|]. left. cbn [snd].
      rewrite downloads_log by (unfold failed; no_download). exact Hshown.
Qed.


(** X14.  A page raises exactly when its animation does: when the download
    of the animation raises, or the animation component raises on what was
    downloaded; the page then stops below its title, after that one GET.
    Otherwise the page returns normally whatever the libraries answer,
    clicked or not, with or without a file: every exception of the pipeline
    ends in the page, a run offers at most one download, and the last thing
    shown is the closing rule. *)
Theorem pages_raise_only_from_animation (env : Env) (s : State) :
  (forall (url : str) (target_language : Language) (clicked : bool),
      let s0 := log s (Widget (Title (128240 :: lit " Article Translator"))) in
      let run := article_translator_page env url target_language clicked s in
      match fst (load_lottie env ARTICLE_ANIMATION s0) with
      | Raise e => run = (Raise e, log s0 (Get ARTICLE_ANIMATION))
      | Ok animation =>
          match lottie_component env animation 200 with
          | Raise e => run = (Raise e, log s0 (Get ARTICLE_ANIMATION))
          | Ok _ =>
              fst run = Ok tt
              /\ (exists before,
                    trace (snd run) = before ++ [Widget (Markdown RULE)])
              /\ at_most_one_more (downloads (trace s))
                   (downloads (trace (snd run)))
          end
      end)
  /\ (forall (file : option bytes) (source_language target_language : Language)
             (clicked : bool),
      let s0 :=
        log s (Widget (Title (128196 :: lit " Word Document Translator"))) in
      let run :=
        document_translator_page env file source_language target_language
          clicked s in
      match fst (load_lottie env DOCUMENT_ANIMATION s0) with
      | Raise e => run = (Raise e, log s0 (Get DOCUMENT_ANIMATION))
      | Ok animation =>
          match lottie_component env animation 200 with
          | Raise e => run = (Raise e, log s0 (Get DOCUMENT_ANIMATION))
          | Ok _ =>
              fst run = Ok tt
              /\ (exists before,
                    trace (snd run) = before ++ [Widget (Markdown RULE)])
              /\ at_most_one_more (downloads (trace s))
                   (downloads (trace (snd run)))
          end
      end).
Proof.
  split.
  - intros url target_language clicked. cbv zeta.
    unfold article_translator_page. cbv beta iota delta [bind].
    pose proof (article_header_run env s) as Hh. cbv zeta in Hh.
    pose proof (header_downloads env s) as Hd.
    destruct (fst (load_lottie env ARTICLE_ANIMATION _)) as [animation|e];
      [|now rewrite Hh].
    destruct (lottie_component env animation 200) as [[]|e]; [|now rewrite Hh].
    specialize (Hd _ (or_introl Hh)). rewrite Hh.
    match goal with |- context [article_translator_action env url target_language clicked ?s1] =>
      set (sh := s1) in *;
      destruct (proj1 (actions_return env sh) url target_language clicked)
        as [Hok Hone]
    end.
    destruct (article_translator_action env url target_language clicked sh)
      as [[[]|e] s2]; cbn [fst snd] in *; [|discriminate].
    unfold st_markdown, emit. cbn [fst snd]. split; [reflexivity|].
    split; [now exists (trace s2)|].
    rewrite downloads_log by no_download. now rewrite <- Hd.
  - intros file source_language target_language clicked. cbv zeta.
    unfold document_translator_page. cbv beta iota delta [bind].
    pose proof (document_header_run env s) as Hh. cbv zeta in Hh.
    pose proof (header_downloads env s) as Hd.
    destruct (fst (load_lottie env DOCUMENT_ANIMATION _)) as [animation|e];
      [|now rewrite Hh].
    destruct (lottie_component env animation 200) as [[]|e]; [|now rewrite Hh].
    specialize (Hd _ (or_intror Hh)). rewrite Hh.
    match goal with |- context [document_translator_action env file source_language target_language clicked ?s1] =>
      set (sh := s1) in *;
      destruct (proj2 (actions_return env sh) file source_language
                  target_language clicked) as [Hok Hone]
    end.
    destruct (document_translator_action env file source_language
                target_language clicked sh) as [[[]|e] s2];
      cbn [fst snd] in *; [|discriminate].
    unfold st_markdown, emit. cbn [fst snd]. split; [reflexivity|].
    split; [now exists (trace s2)|].
    rewrite downloads_log by no_download. now rewrite <- Hd.
Qed.

Lemma pages_raise_only_from_animation_witness :
  article_translator_page (web_world (inl unreachable))
    (lit "https://news.example/a") French true initial
  = (Raise (RequestException unreachable),
     {| trace := [ Widget (Title (128240 :: lit " Article Translator"));
                   Get ARTICLE_ANIMATION ];
        uuids := 0 |})
  /\ fst (document_translator_page unconfigured_world (Some []) English French
            true initial)
     = Ok tt.
Proof.
  split.
  - exact (proj1 (pages_raise_only_from_animation (web_world (inl unreachable))
                    initial)
             (lit "https://news.example/a") French true).
  - exact (proj1 (proj2 (pages_raise_only_from_animation unconfigured_world
                           initial)
                    (Some []) English French true)).
Defined.

(** X15.  With an endpoint configured and a readable document, a run of
    the document page sends exactly one translation request, whatever the
    number of paragraphs and whatever the answer; its text is the paragraph
    texts joined with newlines and its languages are the codes of the two
    selected languages. *)
Theorem document_page_single_request (env : Env) (file : bytes)
    (source_language target_language : Language) (s : State)
    (url : str) (doc : Document) :
  getenv env (lit "TRANSLATOR_ENDPOINT") = Some url ->
  docx_Document env file = Ok doc ->
  posts
    (trace (snd (document_translator_action env (Some file) source_language
                   target_language true s)))
  = posts (trace s)
    ++ [ DocumentsTranslator.request (DocumentsTranslator.init env)
           (url ++ lit "/translate") (uuid4 env (uuids s))
           (join [NEWLINE] (paragraph_texts doc))
           (document_languages source_language)
           (document_languages target_language) ].
Proof.
  intros Hcfg Hdoc.
  rewrite document_action_run, Hdoc. cbv zeta.
  rewrite (phrase_translate_text_run env (DocumentsTranslator.init env) _ _ _ s url Hcfg).
  set (req := DocumentsTranslator.request _ _ _ _ _ _).
  set (s2 := {| trace := trace s ++ [Post req]; uuids := S (uuids s) |}).
  assert (Hs2 : posts (trace s2) = posts (trace s) ++ [req]).
  { subst s2. cbn [trace]. now rewrite posts_app. }
  assert (Hshown : forall o v, posts (trace (translation_shown o v s2))
                               = posts (trace s) ++ [req]).
  { intros. unfold translation_shown. rewrite !posts_log. cbn.
    now rewrite !app_nil_r. }
  destruct (match requests_post env req with
            | inl e => _ | inr response => _ end) as [translation|e].
  2:{ cbn [snd]. rewrite posts_log. unfold failed. now rewrite app_nil_r. }
  destruct (document_builder translation) as [translated_doc|e].
  2:{ cbn [snd]. rewrite posts_log. unfold failed. now rewrite app_nil_r, Hshown. }
  destruct (docx_save env translated_doc) as [buffer|e];
    cbn [snd]; rewrite posts_log; unfold failed; now rewrite app_nil_r, Hshown.
Qed.

Lemma document_page_single_request_witness :
  posts
    (trace (snd (document_translator_action
                   (provider_world (answer 200 (Some bonjour)))
                   (Some []) English French true initial)))
  = [ DocumentsTranslator.request
        (DocumentsTranslator.init (provider_world (answer 200 (Some bonjour))))
        (lit "https://provider.example/translate") (lit "0")
        (lit "Hello") (lit "en") (lit "fr") ].
Proof.
  exact (document_page_single_request
           (provider_world (answer 200 (Some bonjour))) [] English French
           initial (lit "https://provider.example") hello_document
           eq_refl eq_refl).
Defined.



(** ** Trees and bytes *)

Lemma paths_from_nil (f : node -> list path) (l : list node) :
  Forall (fun n => f n = []) l -> forall i, paths_from f i l = [].
Proof.
  induction 1 as [|c l Hc _ IH]; intros i; simpl; [reflexivity|].
  now rewrite Hc, IH.
Qed.

Lemma matching_prune (names : list str) (n : node) :
  matching names (prune names n) = [].
Proof.
  induction n as [k s|name cs IH|] using node_induction; simpl; try reflexivity.
  destruct (name_in name names) eqn:Hin; simpl; [reflexivity|].
  rewrite Hin. simpl. apply paths_from_nil.
  apply Forall_map. exact IH.
Qed.

(** X17.  After the loop of lines 47-48 no tag of the given names is left
    anywhere in the tree, also when such tags were nested in one another;
    running the loop again changes nothing. *)
Theorem decompose_all_leaves_no_match (names : list str) (page : soup) :
  find_all names (decompose_all names page) = []
  /\ decompose_all names (decompose_all names page) = decompose_all names page.
Proof.
  assert (H : find_all names (decompose_all names page) = []).
  { rewrite decompose_all_prune. unfold find_all. apply paths_from_nil.
    apply Forall_map, Forall_forall. intros n _. apply matching_prune. }
  split; [exact H|].
  unfold decompose_all at 1. now rewrite H.
Qed.

Lemma encode_code_point_bytes (c : Z) (bs : bytes) :
  encode_code_point c = Some bs ->
  Forall is_byte bs /\ (1 <= List.length bs <= 4)%nat.
Proof.
  unfold encode_code_point, is_byte.
  destruct (is_scalar c) eqn:Hs; simpl negb; cbv iota; [|discriminate].
  apply is_scalar_spec in Hs.
  pose proof (Z.div_mod c 64 ltac:(lia)) as E1.
  pose proof (Z.mod_pos_bound c 64 ltac:(lia)) as B1.
  pose proof (Z.div_mod (c / 64) 64 ltac:(lia)) as E2.
  pose proof (Z.mod_pos_bound (c / 64) 64 ltac:(lia)) as B2.
  pose proof (Z.div_mod (c / 64 / 64) 64 ltac:(lia)) as E3.
  pose proof (Z.mod_pos_bound (c / 64 / 64) 64 ltac:(lia)) as B3.
  replace (c / 4096) with (c / 64 / 64) by (rewrite Z.div_div by lia; reflexivity).
  replace (c / 262144) with (c / 64 / 64 / 64)
    by (rewrite !Z.div_div by lia; reflexivity).
  set (q1 := c / 64) in *. set (r1 := c mod 64) in *.
  set (q2 := q1 / 64) in *. set (r2 := q1 mod 64) in *.
  set (q3 := q2 / 64) in *. set (r3 := q2 mod 64) in *.
  destruct (Z.ltb_spec c 128); [|destruct (Z.ltb_spec c 2048);
                                   [|destruct (Z.ltb_spec c 65536)]];
    intros Hbs; apply Some_inj in Hbs; subst bs;
    (split; [repeat constructor; lia | simpl; lia]).
Qed.

Lemma encode_code_point_ascii (c : Z) :
  0 <= c < 128 -> encode_code_point c = Some [c].
Proof.
  intros Hc. unfold encode_code_point.
  assert (Hs : is_scalar c = true) by (apply is_scalar_spec; lia).
  rewrite Hs. cbn [negb].
  destruct (Z.ltb_spec c 128); [reflexivity | lia].
Qed.

Lemma utf8_encode_from_bytes (s : str) (pos : nat) (bs : bytes) :
  utf8_encode_from pos s = inr bs ->
  Forall is_byte bs
  /\ (List.length s <= List.length bs <= 4 * List.length s)%nat.
Proof.
  revert pos bs. induction s as [|c s IH]; intros pos bs; cbn [utf8_encode_from].
  - intros [= <-]. split; [constructor | simpl; lia].
  - destruct (encode_code_point c) as [cbs|] eqn:Hc; [|discriminate].
    destruct (utf8_encode_from (S pos) s) as [p|rest] eqn:Hrest; [discriminate|].
    intros [= <-].
    destruct (encode_code_point_bytes c cbs Hc) as [Hb Hl].
    destruct (IH _ _ Hrest) as [Hb' Hl'].
    split; [now apply Forall_app|].
    rewrite length_app. simpl List.length. lia.
Qed.

Lemma utf8_encode_from_ascii (s : str) (pos : nat) :
  Forall (fun c => 0 <= c < 128) s -> utf8_encode_from pos s = inr s.
Proof.
  intros Hs. revert pos. induction Hs as [|c s Hc _ IH]; intros pos;
    cbn [utf8_encode_from]; [reflexivity|].
  now rewrite (encode_code_point_ascii c Hc), IH.
Qed.

(** X18.  When the encoding of a translation succeeds, every element of
    the download is a byte, there are between one and four bytes per
    character, and an ASCII translation is downloaded unchanged. *)
Theorem markdown_bytes (translation : str) (data : bytes) :
  encode (PyStr translation) = Ok data ->
  Forall is_byte data
  /\ (List.length translation <= List.length data
      <= 4 * List.length translation)%nat
  /\ (Forall (fun c => 0 <= c < 128) translation -> data = translation).
Proof.
  unfold encode, utf8_encode.
  destruct (utf8_encode_from 0 translation) as [p|bs] eqn:Hbs; [discriminate|].
  intros [= <-].
  destruct (utf8_encode_from_bytes translation 0%nat bs Hbs) as [Hb Hl].
  repeat split; try assumption; try lia.
  intros Hascii. rewrite (utf8_encode_from_ascii translation 0%nat Hascii) in Hbs.
  congruence.
Qed.

Lemma markdown_bytes_witness :
  Forall is_byte [195; 169; 65]
  /\ (2 <= 3 <= 4 * 2)%nat.
Proof.
  destruct (markdown_bytes [233; 65] [195; 169; 65] eq_refl) as (Hb & Hl & _).
  split; [exact Hb | exact Hl].
Defined.
